(** * Map navigation widget (src/App.tsx): model and verification

    The widget is one React module.  [App] owns the shell state (two address
    fields, an error slot, the list of turn-by-turn steps, the selected tab)
    and [RouteMap] is the resolver: it geocodes both addresses, asks the
    routing service for a driving route and mutates the layers of the Leaflet
    map.

    The embedding is shallow.  React state, the Leaflet layer list and the
    log of outside calls (network requests, console output, state setters)
    are threaded through a state-and-completion monad.  A thrown exception
    keeps every effect made before it, as in JavaScript, which is why the
    monad pairs the completion with the world instead of dropping the world,
    as a state transformer over a sum type would. *)

From Stdlib Require Import List String Ascii Bool Arith ZArith QArith Qabs Qround Lia Lqa.
From Stdlib Require DecimalString.
Import ListNotations.

Local Close Scope Q_scope.
Local Open Scope string_scope.
Local Open Scope list_scope.

(** ** JavaScript values used by the module *)

(** A JavaScript [number].  The module never looks inside one: it adds,
    compares with [>], rounds with [Math.round], reads one from text with
    [parseFloat] and prints one inside a template string.  Those builtins
    are the interface; [lit] is the value of a numeric literal of the source
    text.  [Math_round] is ECMAScript's [Math.round]: the nearest integer,
    a tie going to the larger one. *)
Class JsNumber : Type := {
  number : Type;
  lit : Q -> number;
  num_add : number -> number -> number;
  num_gt : number -> number -> bool;
  Math_round : number -> number;
  parseFloat : string -> number;
  num_toString : number -> string
}.

(** Truthiness of a string: only the empty string is falsy. *)
Definition truthy (s : string) : bool := negb (s =? "").

(** [a || b] where [a] is a string-valued property that can be missing
    ([undefined]) and [b] is a string: the first operand is kept only when it
    is truthy. *)
Definition js_or (a : option string) (b : string) : string :=
  match a with
  | Some s => if truthy s then s else b
  | None => b
  end.

(** [Array.prototype.reduce] with the index passed to the callback. *)
Fixpoint reduce_from {A B : Type} (f : B -> A -> nat -> B) (l : list A) (i : nat) (acc : B) : B :=
  match l with
  | [] => acc
  | x :: rest => reduce_from f rest (S i) (f acc x i)
  end.

Definition reduce {A B : Type} (f : B -> A -> nat -> B) (l : list A) (init : B) : B :=
  reduce_from f l 0 init.

(** [Array.prototype.map] with the index passed to the callback. *)
Fixpoint mapi_from {A B : Type} (f : A -> nat -> B) (l : list A) (i : nat) : list B :=
  match l with
  | [] => []
  | x :: rest => f x i :: mapi_from f rest (S i)
  end.

Definition mapi {A B : Type} (f : A -> nat -> B) (l : list A) : list B :=
  mapi_from f l 0.

(** Exceptions the module can see. *)
Inductive Exn : Type :=
| JsError (message : string)   (* [new Error(message)] *)
| TypeError                    (* property read on [undefined] *)
| NetworkError.                (* [fetch] or [response.json()] rejected *)

(** How an evaluation ends: with a value, or with a thrown exception. *)
Inductive Completion (A : Type) : Type :=
| Normal (a : A)
| Thrown (e : Exn).

Arguments Normal {A} a.
Arguments Thrown {A} e.

(** ** A concrete number instance for evaluation

    Exact rationals with a [NaN], enough to run the model on sample
    payloads.  [parseFloat] reads a plain decimal literal (sign, digits,
    optional fraction), which is what the geocoder sends. *)
Module Rational.

Definition add (a b : option Q) : option Q :=
  match a, b with
  | Some x, Some y => Some (x + y)%Q
  | _, _ => None
  end.

Definition gt (a b : option Q) : bool :=
  match a, b with
  | Some x, Some y => if Qlt_le_dec y x then true else false
  | _, _ => false
  end.

Definition round_Q (x : Q) : Z := Qfloor (x + (1 # 2))%Q.

Definition round (a : option Q) : option Q :=
  match a with
  | Some x => Some (inject_Z (round_Q x))
  | None => None
  end.

(** Splits [s] at the first [sep]. *)
Fixpoint split_at (sep : ascii) (s : string) : string * option string :=
  match s with
  | EmptyString => (EmptyString, None)
  | String c rest =>
      if Ascii.eqb c sep then (EmptyString, Some rest)
      else let '(a, b) := split_at sep rest in (String c a, b)
  end.

Definition digits_Z (s : string) : option Z :=
  match DecimalString.NilEmpty.uint_of_string s with
  | Some u => Some (Z.of_N (N.of_uint u))
  | None => None
  end.

Definition unsigned_decimal (s : string) : option Q :=
  let '(ip, fp) := split_at "." s in
  match digits_Z ip, fp with
  | Some i, None => if (ip =? "") then None else Some (inject_Z i)
  | Some i, Some f =>
      match digits_Z f with
      | Some n =>
          if (ip =? "") && (f =? "") then None
          else Some (inject_Z i + (n # Pos.pow 10 (Pos.of_nat (String.length f))))%Q
      | None => None
      end
  | None, _ => None
  end.

Definition parse (s : string) : option Q :=
  match s with
  | String "-" rest =>
      match unsigned_decimal rest with
      | Some q => Some (- q)%Q
      | None => None
      end
  | _ => unsigned_decimal s
  end.

Definition string_of_Z (z : Z) : string :=
  DecimalString.NilZero.string_of_int (Z.to_int z).

(** Fraction digits of [r / d] for [0 <= r < d], at most [fuel] of them. *)
Fixpoint fraction_digits (fuel : nat) (r d : Z) : string :=
  match fuel with
  | O => EmptyString
  | S fuel' =>
      if (r =? 0)%Z then EmptyString
      else String (ascii_of_nat (48 + Z.to_nat ((10 * r) / d)))
                  (fraction_digits fuel' ((10 * r) mod d) d)
  end.

Definition toString (a : option Q) : string :=
  match a with
  | None => "NaN"
  | Some x =>
      let n := Qnum x in
      let d := Zpos (Qden x) in
      let i := (Z.abs n / d)%Z in
      let r := (Z.abs n mod d)%Z in
      (if (n <? 0)%Z then "-" else "") ++ string_of_Z i
        ++ (if (r =? 0)%Z then "" else "." ++ fraction_digits 20 r d)
  end.

End Rational.

#[export] Instance RationalNumber : JsNumber := {|
  number := option Q;
  lit := Some;
  num_add := Rational.add;
  num_gt := Rational.gt;
  Math_round := Rational.round;
  parseFloat := Rational.parse;
  num_toString := Rational.toString
|}.

(** ** Data model *)

Section Model.

Context {N : JsNumber}.

(** [interface Coordinates { lat: number; lng: number }] *)
Record Coordinates : Type := { lat : number; lng : number }.

(** [interface RouteStep { instruction: string; distance: number }] *)
Record RouteStep : Type := { instruction : string; distance : number }.

(** A Leaflet position, written [[lat, lng]] in the source. *)
Definition LatLng : Type := (number * number)%type.

(** *** Payloads of the two services *)

(** One candidate of the geocoder; [lat] and [lon] are strings. *)
Record GeoResult : Type := { geo_lat : string; geo_lon : string }.

(** What [fetch] followed by [response.json()] yields for a geocoding
    request: a rejection, or the decoded array of candidates. *)
Inductive GeoResponse : Type :=
| GeoFailed
| GeoData (data : list GeoResult).

(** A step of a leg: [{maneuver: {instruction}, name, distance}].  The
    router may leave [maneuver.instruction] out. *)
Record StepPayload : Type := {
  maneuver_instruction : option string;
  step_name : string;
  step_distance : number
}.

Record LegPayload : Type := { steps : list StepPayload }.

(** A route: its legs and its GeoJSON geometry, a list of [[lon, lat]]
    pairs.  The geometry is an optional member of a route object. *)
Record RoutePayload : Type := {
  legs : list LegPayload;
  geometry_coordinates : option (list (number * number))
}.

Record RouteData : Type := { code : string; routes : list RoutePayload }.

Inductive RouteResponse : Type :=
| RouteFailed
| RouteJson (data : RouteData).

(** What the outside world answers during one pass of [updateRoute]: to the
    geocoding request for [from], to the one for [to], and to the routing
    request (used only if that request is made). *)
Record Answers : Type := {
  answer_from : GeoResponse;
  answer_to : GeoResponse;
  answer_route : RouteResponse
}.

(** *** The Leaflet map *)

Inductive Icon : Type :=
| DefaultIcon
| airportIcon.   (* [const airportIcon = new L.Icon({...})] *)

(** The layers a map can hold: the tile layer of [App], the markers and
    polylines [updateRoute] adds, and any layer that is neither a marker nor
    a polyline. *)
Inductive Layer : Type :=
| TileLayer
| Marker (latlng : LatLng) (icon : Icon) (popup : string)
| Polyline (latlngs : list LatLng) (color : string) (weight : nat)
| OtherLayer (label : string).

Inductive Viewport : Type :=
| InitialView
| FitBounds (latlngs : list LatLng) (padding : nat * nat).

Record LeafletMap : Type := { layers : list Layer; viewport : Viewport }.

(** [layer instanceof L.Marker || layer instanceof L.Polyline] *)
Definition is_route_layer (l : Layer) : bool :=
  match l with
  | Marker _ _ _ => true
  | Polyline _ _ _ => true
  | TileLayer => false
  | OtherLayer _ => false
  end.

(** *** Shell state and the world *)

(** The five [useState] cells of [App]. *)
Record Shell : Type := {
  origin : string;
  destination : string;
  error : option string;
  directions : list RouteStep;
  tabValue : nat
}.

Inductive Request : Type :=
| Nominatim (address : string)
| Osrm (start finish : Coordinates).

(** Every call made on the outside (network, console, state setters), in
    the order it is made. *)
Inductive Effect : Type :=
| Fetch (r : Request)
| ConsoleError (label : string) (e : Exn)
| SetOrigin (s : string)
| SetDestination (s : string)
| SetError (e : option string)
| SetDirections (s : list RouteStep)
| SetTabValue (t : nat).

Record World : Type := {
  shell : Shell;
  leaflet : LeafletMap;
  effects : list Effect
}.

(** ** The effect monad *)

Definition Eff (A : Type) : Type := World -> Completion A * World.

Definition ret {A : Type} (a : A) : Eff A := fun w => (Normal a, w).

Definition bind {A B : Type} (m : Eff A) (k : A -> Eff B) : Eff B :=
  fun w =>
    match m w with
    | (Normal a, w') => k a w'
    | (Thrown e, w') => (Thrown e, w')
    end.

Definition throw {A : Type} (e : Exn) : Eff A := fun w => (Thrown e, w).

(** [try { body } catch (error) { handler }] *)
Definition try_catch {A : Type} (body : Eff A) (handler : Exn -> Eff A) : Eff A :=
  fun w =>
    match body w with
    | (Normal a, w') => (Normal a, w')
    | (Thrown e, w') => handler e w'
    end.

End Model.

Declare Scope eff_scope.
Delimit Scope eff_scope with eff.
Notation "x <- m ;; k" := (bind m (fun x => k))
  (at level 61, m at next level, right associativity) : eff_scope.
Notation "m ;; k" := (bind m (fun _ => k))
  (at level 61, right associativity) : eff_scope.

Local Open Scope eff_scope.

(** ** The program *)

Section Program.

Context {N : JsNumber}.

(** [map.distance(a, b)]: Leaflet's great-circle distance in meters between
    two positions.  It belongs to the map library and is a parameter. *)
Variable map_distance : LatLng -> LatLng -> number.

(** *** Primitive effects *)

Definition emit (e : Effect) : Eff unit :=
  fun w => (Normal tt,
            {| shell := shell w; leaflet := leaflet w; effects := effects w ++ [e] |}).

Definition modify_shell (f : Shell -> Shell) : Eff unit :=
  fun w => (Normal tt,
            {| shell := f (shell w); leaflet := leaflet w; effects := effects w |}).

Definition modify_map (f : LeafletMap -> LeafletMap) : Eff unit :=
  fun w => (Normal tt,
            {| shell := shell w; leaflet := f (leaflet w); effects := effects w |}).

Definition get_shell : Eff Shell := fun w => (Normal (shell w), w).

Definition console_error (label : string) (e : Exn) : Eff unit :=
  emit (ConsoleError label e).

(** Writing one [useState] cell leaves the other four alone. *)
Definition with_origin (v : string) (s : Shell) : Shell :=
  {| origin := v; destination := destination s; error := error s;
     directions := directions s; tabValue := tabValue s |}.

Definition with_destination (v : string) (s : Shell) : Shell :=
  {| origin := origin s; destination := v; error := error s;
     directions := directions s; tabValue := tabValue s |}.

Definition with_error (e : option string) (s : Shell) : Shell :=
  {| origin := origin s; destination := destination s; error := e;
     directions := directions s; tabValue := tabValue s |}.

Definition with_directions (d : list RouteStep) (s : Shell) : Shell :=
  {| origin := origin s; destination := destination s; error := error s;
     directions := d; tabValue := tabValue s |}.

Definition with_tabValue (t : nat) (s : Shell) : Shell :=
  {| origin := origin s; destination := destination s; error := error s;
     directions := directions s; tabValue := t |}.

(** The state setters returned by [useState]. *)
Definition setOrigin (v : string) : Eff unit :=
  emit (SetOrigin v) ;; modify_shell (with_origin v).

Definition setDestination (v : string) : Eff unit :=
  emit (SetDestination v) ;; modify_shell (with_destination v).

Definition setError (e : option string) : Eff unit :=
  emit (SetError e) ;; modify_shell (with_error e).

Definition setDirections (d : list RouteStep) : Eff unit :=
  emit (SetDirections d) ;; modify_shell (with_directions d).

Definition setTabValue (t : nat) : Eff unit :=
  emit (SetTabValue t) ;; modify_shell (with_tabValue t).

(** [await fetch(url)] then [await response.json()], for the geocoder
    ([https://nominatim.openstreetmap.org/search?format=json&q=<address>]). *)
Definition fetch_geocode (address : string) (answer : GeoResponse) : Eff (list GeoResult) :=
  emit (Fetch (Nominatim address)) ;;
  match answer with
  | GeoFailed => throw NetworkError
  | GeoData data => ret data
  end.

(** The same for the router
    ([https://router.project-osrm.org/route/v1/driving/<start>;<end>?...]). *)
Definition fetch_route (start finish : Coordinates) (answer : RouteResponse) : Eff RouteData :=
  emit (Fetch (Osrm start finish)) ;;
  match answer with
  | RouteFailed => throw NetworkError
  | RouteJson data => ret data
  end.

(** [xs[0].field]: reading a property of the first element throws a
    [TypeError] when there is none. *)
Definition first {A : Type} (xs : list A) : Eff A :=
  match xs with
  | x :: _ => ret x
  | [] => throw TypeError
  end.

(** [obj.field.member] where [field] can be missing. *)
Definition member {A : Type} (field : option A) : Eff A :=
  match field with
  | Some x => ret x
  | None => throw TypeError
  end.

(** Leaflet calls. *)
Definition addTo (l : Layer) : Eff unit :=
  modify_map (fun m => {| layers := layers m ++ [l]; viewport := viewport m |}).

Definition fitBounds (latlngs : list LatLng) (padding : nat * nat) : Eff unit :=
  modify_map (fun m => {| layers := layers m; viewport := FitBounds latlngs padding |}).

(** [map.eachLayer(layer => { if (layer instanceof L.Marker || layer
    instanceof L.Polyline) map.removeLayer(layer) })] *)
Definition remove_route_layers : Eff unit :=
  modify_map (fun m => {| layers := filter (fun l => negb (is_route_layer l)) (layers m);
                          viewport := viewport m |}).

Fixpoint forEach {A : Type} (xs : list A) (f : A -> Eff unit) : Eff unit :=
  match xs with
  | [] => ret tt
  | x :: rest => f x ;; forEach rest f
  end.

(** Calling an [async] function without awaiting it: its effects happen,
    its completion is dropped. *)
Definition spawn (m : Eff unit) : Eff unit :=
  fun w => (Normal tt, snd (m w)).

(** *** RouteMap *)

(** The three fixed messages shown in the banner. *)
Definition lookup_message : string := "Error finding location. Please try a different address.".
Definition route_message : string := "Error finding route. Please try again.".
Definition input_message : string := "Please enter both origin and destination".

Definition getCoordinates (address : string) (answer : GeoResponse) : Eff (option Coordinates) :=
  try_catch
    (data <- fetch_geocode address answer ;;
     match data with
     | r :: _ => ret (Some {| lat := parseFloat (geo_lat r); lng := parseFloat (geo_lon r) |})
     | [] => throw (JsError "Location not found")
     end)
    (fun error =>
       console_error "Error getting coordinates:" error ;;
       setError (Some lookup_message) ;;
       ret None).

(** The callback of [steps.map] in [getRoute]:
    [{instruction: step.maneuver.instruction || step.name,
      distance: Math.round(step.distance)}] *)
Definition to_RouteStep (step : StepPayload) : RouteStep :=
  {| instruction := js_or (maneuver_instruction step) (step_name step);
     distance := Math_round (step_distance step) |}.

(** The callback of [coordinates.map] in [getRoute]: [[coord[1], coord[0]]] *)
Definition to_LatLng (coord : number * number) : LatLng := (snd coord, fst coord).

Definition getRoute (start finish : Coordinates) (answer : RouteResponse)
  : Eff (option (list LatLng)) :=
  try_catch
    (data <- fetch_route start finish answer ;;
     (if negb (code data =? "Ok") then throw (JsError "Route not found") else ret tt) ;;
     route0 <- first (routes data) ;;
     leg0 <- first (legs route0) ;;
     let steps := map to_RouteStep (steps leg0) in
     setDirections steps ;;
     coordinates <- member (geometry_coordinates route0) ;;
     ret (Some (map to_LatLng coordinates)))
    (fun error =>
       console_error "Error getting route:" error ;;
       setError (Some route_message) ;;
       ret None).

Record Airport : Type := { name : string; coords : LatLng }.

Definition airports : list Airport :=
  [ {| name := "DFW"; coords := (lit 32.8998, lit (-97.0403)) |};
    {| name := "DAL"; coords := (lit 32.8481, lit (-96.8512)) |} ].

(** The [reduce] of [updateRoute].  [routeCoordinates[i - 1]] is read only
    for [i >= 1], where it exists. *)
Definition route_distance (routeCoordinates : list LatLng) : number :=
  reduce
    (fun total coord i =>
       if (i =? 0)%nat then lit 0
       else match nth_error routeCoordinates (i - 1) with
            | Some prev => num_add total (map_distance prev coord)
            | None => total
            end)
    routeCoordinates (lit 0).

Definition updateRoute (from to : string) (answers : Answers) : Eff unit :=
  fromCoords <- getCoordinates from (answer_from answers) ;;
  toCoords <- getCoordinates to (answer_to answers) ;;
  match fromCoords, toCoords with
  | Some fromCoords, Some toCoords =>
      remove_route_layers ;;
      routeCoordinates <- getRoute fromCoords toCoords (answer_route answers) ;;
      match routeCoordinates with
      | Some routeCoordinates =>
          addTo (Marker (lat fromCoords, lng fromCoords) DefaultIcon ("Start: " ++ from)) ;;
          addTo (Marker (lat toCoords, lng toCoords) DefaultIcon ("End: " ++ to)) ;;
          addTo (Polyline routeCoordinates "#2196F3" 5) ;;
          fitBounds routeCoordinates (50, 50) ;;
          let distance := route_distance routeCoordinates in
          if num_gt distance (lit 100000) then
            forEach airports
              (fun airport => addTo (Marker (coords airport) airportIcon (name airport ++ " Airport")))
          else ret tt
      | None => ret tt
      end
  | _, _ => ret tt
  end.

(** The body of the component: [if (from && to) { updateRoute(); }]. *)
Definition RouteMap (from to : string) (answers : Answers) : Eff unit :=
  if truthy from && truthy to then spawn (updateRoute from to answers) else ret tt.

(** *** App *)

(** The initial values of the five [useState] cells. *)
Definition initial_shell : Shell :=
  {| origin := ""; destination := ""; error := None; directions := []; tabValue := 0 |}.

Definition handleTabChange (newValue : nat) : Eff unit := setTabValue newValue.

Definition handleSubmit : Eff unit :=
  s <- get_shell ;;
  if negb (truthy (origin s)) || negb (truthy (destination s)) then
    setError (Some input_message)
  else
    setError None.

(** [{error && <Alert severity="error">{error}</Alert>}]: the banner. *)
Definition Alert (s : Shell) : option string :=
  match error s with
  | Some e => if truthy e then Some e else None
  | None => None
  end.

(** [TabPanel]: the children are rendered only when [value === index]. *)
Definition TabPanel {A : Type} (value index : nat) (children : A) : option A :=
  if (value =? index)%nat then Some children else None.

(** One [<ListItem>] of the Directions tab. *)
Record ListItem : Type := {
  key : nat;
  divider : bool;
  primary : string;
  secondary : string
}.

(** What the Directions tab holds: the [<List>] or the placeholder. *)
Inductive DirectionsView : Type :=
| StepList (items : list ListItem)
| Placeholder (text : string).

Definition quote : string := String (ascii_of_nat 34) EmptyString.

Definition placeholder_text : string :=
  "Enter a destination and click " ++ quote ++ "Get Directions" ++ quote
    ++ " to see turn-by-turn directions".

(** [directions.length > 0 ? <List>{directions.map(...)}</List> : <Box>...</Box>] *)
Definition directions_view (directions : list RouteStep) : DirectionsView :=
  if (0 <? List.length directions)%nat then
    StepList
      (mapi (fun step index =>
               {| key := index;
                  divider := negb (index =? List.length directions - 1)%nat;
                  primary := instruction step;
                  secondary := num_toString (distance step) ++ " meters" |})
            directions)
  else Placeholder placeholder_text.

(** [<TabPanel value={tabValue} index={1}> ... </TabPanel>] of [App]. *)
Definition directions_tab (s : Shell) : option DirectionsView :=
  TabPanel (tabValue s) 1 (directions_view (directions s)).

(** *** Everything that can happen to the widget

    The four event handlers of [App], and one rendering of [RouteMap] with
    the current fields as its [from] and [to] props, carried to its end with
    the answers the services give.  When React renders is its business;
    each rendering is one [Render]. *)
Inductive Action : Type :=
| TypeOrigin (v : string)
| TypeDestination (v : string)
| SelectTab (newValue : nat)
| Submit
| Render (answers : Answers).

Definition perform (a : Action) : Eff unit :=
  match a with
  | TypeOrigin v => setOrigin v
  | TypeDestination v => setDestination v
  | SelectTab newValue => handleTabChange newValue
  | Submit => handleSubmit
  | Render answers =>
      s <- get_shell ;; RouteMap (origin s) (destination s) answers
  end.

Definition after (a : Action) (w : World) : World := snd (perform a w).

Definition after_all (acts : list Action) (w : World) : World :=
  fold_left (fun w a => after a w) acts w.

(** ** Vocabulary of the properties *)

(** The world with further effects logged. *)
Definition logged (es : list Effect) (w : World) : World :=
  {| shell := shell w; leaflet := leaflet w; effects := effects w ++ es |}.

(** The network requests of a log. *)
Definition requests (es : list Effect) : list Request :=
  flat_map (fun e => match e with Fetch r => [r] | _ => [] end) es.

(** The first candidate of a geocoding answer, if it has one. *)
Definition first_result (answer : GeoResponse) : option GeoResult :=
  match answer with
  | GeoData data => hd_error data
  | GeoFailed => None
  end.

Definition to_Coordinates (r : GeoResult) : Coordinates :=
  {| lat := parseFloat (geo_lat r); lng := parseFloat (geo_lon r) |}.

(** What [getCoordinates] catches for an answer without a first candidate. *)
Definition lookup_failure (answer : GeoResponse) : Exn :=
  match answer with
  | GeoFailed => NetworkError
  | GeoData _ => JsError "Location not found"
  end.

(** The first leg of the first route of an answer whose status is [Ok]. *)
Definition first_leg (answer : RouteResponse) : option (RoutePayload * LegPayload) :=
  match answer with
  | RouteFailed => None
  | RouteJson data =>
      if code data =? "Ok" then
        match hd_error (routes data) with
        | Some route0 =>
            match hd_error (legs route0) with
            | Some leg0 => Some (route0, leg0)
            | None => None
            end
        | None => None
        end
      else None
  end.

(** What [getRoute] catches when the answer has no such leg. *)
Definition route_failure (answer : RouteResponse) : Exn :=
  match answer with
  | RouteFailed => NetworkError
  | RouteJson data => if code data =? "Ok" then TypeError else JsError "Route not found"
  end.

(** Distances between consecutive points of a polyline. *)
Fixpoint segment_lengths (points : list LatLng) : list number :=
  match points with
  | p :: (q :: _) as rest => map_distance p q :: segment_lengths rest
  | _ => []
  end.

(** Their sum, added up from the first segment on. *)
Definition polyline_length (points : list LatLng) : number :=
  fold_left num_add (segment_lengths points) (lit 0).

Definition airport_marker (a : Airport) : Layer :=
  Marker (coords a) airportIcon (name a ++ " Airport").

Definition is_airport_marker (l : Layer) : bool :=
  match l with
  | Marker _ airportIcon _ => true
  | _ => false
  end.

(** The map once [updateRoute] has removed the markers and polylines. *)
Definition cleared (m : LeafletMap) : LeafletMap :=
  {| layers := filter (fun l => negb (is_route_layer l)) (layers m);
     viewport := viewport m |}.

(** The airport markers a polyline calls for. *)
Definition airport_layers (points : list LatLng) : list Layer :=
  if num_gt (polyline_length points) (lit 100000) then map airport_marker airports else [].

(** The layers a resolved route adds, in the order they are added. *)
Definition route_layers (from to : string) (start finish : Coordinates)
  (points : list LatLng) : list Layer :=
  [ Marker (lat start, lng start) DefaultIcon ("Start: " ++ from);
    Marker (lat finish, lng finish) DefaultIcon ("End: " ++ to);
    Polyline points "#2196F3" 5 ]
  ++ airport_layers points.

(** A pass resolves when both addresses are found and the routing answer has
    status [Ok], a first route with a first leg, and a geometry. *)
Definition resolves (answers : Answers) : bool :=
  match first_result (answer_from answers), first_result (answer_to answers),
        first_leg (answer_route answers) with
  | Some _, Some _, Some (route0, _) =>
      match geometry_coordinates route0 with
      | Some _ => true
      | None => false
      end
  | _, _, _ => false
  end.

(** A rendering of [RouteMap] whose pass resolves. *)
Definition resolving_pass (a : Action) : bool :=
  match a with
  | Render answers => resolves answers
  | _ => false
  end.

(** *** What [App] renders *)

(** [!!error]: the error slot as a boolean. *)
Definition has_error (s : Shell) : bool :=
  match error s with
  | Some e => truthy e
  | None => false
  end.

(** A [<TextField>] of the form: its label, its value, its [error] flag. *)
Record TextField : Type := {
  field_label : string;
  field_value : string;
  field_error : bool
}.

(** The props [RouteMap] gets from [App]: [from={origin} to={destination}]. *)
Record RouteMapProps : Type := { prop_from : string; prop_to : string }.

(** The [hidden] attribute of a [TabPanel]: [value !== index]. *)
Definition TabPanel_hidden (value index : nat) : bool := negb (value =? index)%nat.

(** The tree [App] returns, down to what depends on the state: the two
    fields, the banner, the selected tab, and the children of the two tab
    panels ([RouteMap] sits in the panel of index 0, the directions in the
    panel of index 1). *)
Record AppView : Type := {
  origin_field : TextField;
  destination_field : TextField;
  banner : option string;
  selected_tab : nat;
  map_panel : option RouteMapProps;
  directions_panel : option DirectionsView
}.

Definition App (s : Shell) : AppView :=
  {| origin_field :=
       {| field_label := "Origin"; field_value := origin s;
          field_error := negb (truthy (origin s)) && has_error s |};
     destination_field :=
       {| field_label := "Destination"; field_value := destination s;
          field_error := negb (truthy (destination s)) && has_error s |};
     banner := Alert s;
     selected_tab := tabValue s;
     map_panel := TabPanel (tabValue s) 0 {| prop_from := origin s; prop_to := destination s |};
     directions_panel := directions_tab s |}.

(** Requests to the geocoder. *)
Definition is_geocode_request (r : Request) : bool :=
  match r with
  | Nominatim _ => true
  | Osrm _ _ => false
  end.

Definition is_render (a : Action) : bool :=
  match a with
  | Render _ => true
  | _ => false
  end.

(** The error slot holds nothing or one of the three fixed messages. *)
Definition known_error (e : option string) : Prop :=
  e = None \/ e = Some input_message \/ e = Some lookup_message \/ e = Some route_message.

End Program.

(** ** Sample inputs

    Payloads in the shape the two services send, over [RationalNumber]. *)
Module Sample.

(** A stand-in for [map.distance] that can be evaluated: 111 km per degree,
    along the two axes. *)
Definition flat_distance (a b : @LatLng RationalNumber) : @number RationalNumber :=
  match a, b with
  | (Some la, Some lo), (Some la', Some lo') =>
      Some (111000 * (Qabs (la - la') + Qabs (lo - lo')))%Q
  | _, _ => None
  end.

Definition dallas : GeoResult := {| geo_lat := "32.7762719"; geo_lon := "-96.7968559" |}.
Definition fort_worth : GeoResult := {| geo_lat := "32.753177"; geo_lon := "-97.3327459" |}.
Definition austin : GeoResult := {| geo_lat := "30.2711286"; geo_lon := "-97.7436995" |}.

Definition depart : StepPayload :=
  {| maneuver_instruction := None; step_name := "Main Street";
     step_distance := lit 412.6 |}.
Definition merge : StepPayload :=
  {| maneuver_instruction := Some "Merge onto I-30 West"; step_name := "I-30";
     step_distance := lit 48210.5 |}.
Definition arrive : StepPayload :=
  {| maneuver_instruction := None; step_name := "";
     step_distance := lit 0 |}.

(** A step whose instruction is present and empty. *)
Definition unnamed_turn : StepPayload :=
  {| maneuver_instruction := Some ""; step_name := "Elm Street";
     step_distance := lit 120.4 |}.

(** [[lon, lat]] pairs, as GeoJSON has them. *)
Definition short_line : list (@number RationalNumber * @number RationalNumber) :=
  [ (lit (-96.7968), lit 32.7762); (lit (-97.0403), lit 32.7600); (lit (-97.3327), lit 32.7531) ].

Definition long_line : list (@number RationalNumber * @number RationalNumber) :=
  [ (lit (-96.7968), lit 32.7762); (lit (-97.1000), lit 31.5000); (lit (-97.7436), lit 30.2711) ].

Definition leg_of (ss : list StepPayload) : LegPayload := {| steps := ss |}.

Definition route_along (line : list (@number RationalNumber * @number RationalNumber))
  (ss : list StepPayload) : RoutePayload :=
  {| legs := [ leg_of ss ]; geometry_coordinates := Some line |}.

Definition route_of (line : list (@number RationalNumber * @number RationalNumber))
  (ss : list StepPayload) : RouteData :=
  {| code := "Ok"; routes := [ route_along line ss ] |}.

Definition three_steps : list StepPayload := [depart; merge; arrive].

Definition to_fort_worth : Answers :=
  {| answer_from := GeoData [dallas]; answer_to := GeoData [fort_worth];
     answer_route := RouteJson (route_of short_line three_steps) |}.

Definition to_austin : Answers :=
  {| answer_from := GeoData [dallas]; answer_to := GeoData [austin];
     answer_route := RouteJson (route_of long_line three_steps) |}.

(** The router finds no route: [{code: NoRoute}]. *)
Definition no_route : Answers :=
  {| answer_from := GeoData [dallas]; answer_to := GeoData [fort_worth];
     answer_route := RouteJson {| code := "NoRoute"; routes := [] |} |}.

(** Status [Ok] and a step list, and no geometry member. *)
Definition no_geometry : Answers :=
  {| answer_from := GeoData [dallas]; answer_to := GeoData [fort_worth];
     answer_route :=
       RouteJson {| code := "Ok";
                    routes := [ {| legs := [ {| steps := [depart] |} ];
                                   geometry_coordinates := None |} ] |} |}.

Definition nowhere : Answers :=
  {| answer_from := GeoData []; answer_to := GeoFailed; answer_route := RouteFailed |}.

(** The widget as it is mounted, then with both fields typed in. *)
Definition mounted : World :=
  {| shell := initial_shell;
     leaflet := {| layers := [TileLayer]; viewport := InitialView |};
     effects := [] |}.

Definition typed : World :=
  {| shell := {| origin := "Dallas, TX"; destination := "Fort Worth, TX"; error := None;
                 directions := []; tabValue := 0 |};
     leaflet := {| layers := [TileLayer]; viewport := InitialView |};
     effects := [] |}.

(** The same after an earlier route was drawn. *)
Definition drawn : World :=
  snd (updateRoute flat_distance "Dallas, TX" "Fort Worth, TX" to_fort_worth typed).

End Sample.

(** ** Properties *)

Ltac run_eff :=
  unfold getCoordinates, getRoute, handleSubmit, handleTabChange, setError, setDirections,
    setOrigin, setDestination, setTabValue, console_error, fetch_geocode, fetch_route,
    try_catch, bind, ret, throw, emit, modify_shell, modify_map, get_shell, first, member,
    logged; simpl.

Ltac same_log := rewrite <- ?app_assoc; simpl; reflexivity.

Section Properties.

Context {N : JsNumber}.
Variable map_distance : LatLng -> LatLng -> number.

(** *** Running the pieces *)

Lemma truthy_false (s : string) : truthy s = false <-> s = "".
Proof.
  unfold truthy. destruct (String.eqb_spec s ""); simpl; split; intro H; congruence.
Qed.

Lemma truthy_true (s : string) : truthy s = true <-> s <> "".
Proof.
  unfold truthy. destruct (String.eqb_spec s ""); simpl; split; intro H; congruence.
Qed.

Lemma getCoordinates_found (address : string) (answer : GeoResponse) (r : GeoResult) (w : World) :
  first_result answer = Some r ->
  getCoordinates address answer w
  = (Normal (Some (to_Coordinates r)), logged [Fetch (Nominatim address)] w).
Proof.
  intro H. destruct answer as [|[|r' rest]]; simpl in H; try discriminate.
  injection H as ->. reflexivity.
Qed.

Lemma getCoordinates_not_found (address : string) (answer : GeoResponse) (w : World) :
  first_result answer = None ->
  getCoordinates address answer w
  = (Normal None,
     {| shell := with_error (Some lookup_message) (shell w);
        leaflet := leaflet w;
        effects := effects w ++ [Fetch (Nominatim address);
                                 ConsoleError "Error getting coordinates:" (lookup_failure answer);
                                 SetError (Some lookup_message)] |}).
Proof.
  intro H. destruct answer as [|[|r' rest]]; simpl in H; try discriminate;
    run_eff; f_equal; f_equal; same_log.
Qed.

Lemma getRoute_no_leg (start finish : Coordinates) (answer : RouteResponse) (w : World) :
  first_leg answer = None ->
  getRoute start finish answer w
  = (Normal None,
     {| shell := with_error (Some route_message) (shell w);
        leaflet := leaflet w;
        effects := effects w ++ [Fetch (Osrm start finish);
                                 ConsoleError "Error getting route:" (route_failure answer);
                                 SetError (Some route_message)] |}).
Proof.
  intro H. destruct answer as [|data]; run_eff.
  - f_equal; f_equal; same_log.
  - simpl in H. destruct (code data =? "Ok"); simpl.
    + destruct (routes data) as [|route0 rest]; simpl in *.
      * f_equal; f_equal; same_log.
      * destruct (legs route0) as [|leg0 rest']; simpl in *; try discriminate.
        f_equal; f_equal; same_log.
    + f_equal; f_equal; same_log.
Qed.

Lemma getRoute_leg (start finish : Coordinates) (answer : RouteResponse)
  (route0 : RoutePayload) (leg0 : LegPayload) (w : World) :
  first_leg answer = Some (route0, leg0) ->
  getRoute start finish answer w
  = match geometry_coordinates route0 with
    | Some coordinates =>
        (Normal (Some (map to_LatLng coordinates)),
         {| shell := with_directions (map to_RouteStep (steps leg0)) (shell w);
            leaflet := leaflet w;
            effects := effects w ++ [Fetch (Osrm start finish);
                                     SetDirections (map to_RouteStep (steps leg0))] |})
    | None =>
        (Normal None,
         {| shell := with_error (Some route_message)
                       (with_directions (map to_RouteStep (steps leg0)) (shell w));
            leaflet := leaflet w;
            effects := effects w ++ [Fetch (Osrm start finish);
                                     SetDirections (map to_RouteStep (steps leg0));
                                     ConsoleError "Error getting route:" TypeError;
                                     SetError (Some route_message)] |})
    end.
Proof.
  intro H. destruct answer as [|data]; simpl in H; try discriminate.
  run_eff. destruct (code data =? "Ok"); simpl in *; try discriminate.
  destruct (routes data) as [|r rest]; simpl in *; try discriminate.
  destruct (legs r) as [|l rest']; simpl in *; try discriminate.
  injection H as -> ->.
  destruct (geometry_coordinates route0); simpl; f_equal; f_equal; same_log.
Qed.


(** *** The reduce of [updateRoute] is the sum over consecutive points *)

Lemma reduce_from_tail (before : list LatLng) (prev : LatLng) (rest : list LatLng) (acc : number) :
  reduce_from
    (fun total coord i =>
       if (i =? 0)%nat then lit 0
       else match nth_error (before ++ prev :: rest) (i - 1) with
            | Some p => num_add total (map_distance p coord)
            | None => total
            end)
    rest (S (List.length before)) acc
  = fold_left num_add (segment_lengths map_distance (prev :: rest)) acc.
Proof.
  revert before prev acc.
  induction rest as [|q rest IH]; intros before prev acc.
  - reflexivity.
  - cbn [reduce_from segment_lengths fold_left].
    replace (S (List.length before) - 1) with (List.length before) by lia.
    rewrite nth_error_app2 by lia. rewrite Nat.sub_diag. cbn [nth_error Nat.eqb].
    specialize (IH (before ++ [prev]) q (num_add acc (map_distance prev q))).
    rewrite <- app_assoc in IH. cbn [app] in IH.
    rewrite length_app in IH. cbn [List.length] in IH. rewrite Nat.add_1_r in IH.
    exact IH.
Qed.

Lemma route_distance_sum (points : list LatLng) :
  route_distance map_distance points = polyline_length map_distance points.
Proof.
  unfold route_distance, polyline_length, reduce.
  destruct points as [|p rest]; [reflexivity|].
  cbn [reduce_from Nat.eqb].
  exact (reduce_from_tail [] p rest (lit 0)).
Qed.

(** *** One pass of [updateRoute], case by case *)

Lemma forEach_airports (w : World) :
  forEach airports
    (fun airport => addTo (Marker (coords airport) airportIcon (name airport ++ " Airport"))) w
  = (Normal tt,
     {| shell := shell w;
        leaflet := {| layers := layers (leaflet w) ++ map airport_marker airports;
                      viewport := viewport (leaflet w) |};
        effects := effects w |}).
Proof.
  unfold airports, forEach, addTo, modify_map, bind, ret, airport_marker. simpl.
  rewrite <- app_assoc. reflexivity.
Qed.

Lemma updateRoute_not_geocoded (from to : string) (answers : Answers) (w : World) :
  first_result (answer_from answers) = None \/ first_result (answer_to answers) = None ->
  updateRoute map_distance from to answers w
  = (Normal tt,
     snd (getCoordinates to (answer_to answers)
            (snd (getCoordinates from (answer_from answers) w)))).
Proof.
  intro H. unfold updateRoute, bind.
  destruct (first_result (answer_from answers)) as [r1|] eqn:E1;
    destruct (first_result (answer_to answers)) as [r2|] eqn:E2;
    try (destruct H; discriminate).
  - rewrite (getCoordinates_found _ _ _ _ E1). cbn [snd].
    rewrite (getCoordinates_not_found _ _ _ E2). reflexivity.
  - rewrite (getCoordinates_not_found _ _ _ E1). cbn [snd].
    rewrite (getCoordinates_found _ _ _ _ E2). reflexivity.
  - rewrite (getCoordinates_not_found _ _ _ E1). cbn [snd].
    rewrite (getCoordinates_not_found _ _ _ E2). reflexivity.
Qed.

Lemma updateRoute_no_leg (from to : string) (answers : Answers) (r1 r2 : GeoResult) (w : World) :
  first_result (answer_from answers) = Some r1 ->
  first_result (answer_to answers) = Some r2 ->
  first_leg (answer_route answers) = None ->
  updateRoute map_distance from to answers w
  = (Normal tt,
     {| shell := with_error (Some route_message) (shell w);
        leaflet := cleared (leaflet w);
        effects := effects w ++ [Fetch (Nominatim from); Fetch (Nominatim to);
                                 Fetch (Osrm (to_Coordinates r1) (to_Coordinates r2));
                                 ConsoleError "Error getting route:"
                                   (route_failure (answer_route answers));
                                 SetError (Some route_message)] |}).
Proof.
  intros E1 E2 E3. unfold updateRoute, bind.
  rewrite (getCoordinates_found _ _ _ _ E1), (getCoordinates_found _ _ _ _ E2).
  unfold remove_route_layers, modify_map.
  rewrite (getRoute_no_leg _ _ _ _ E3). unfold ret, logged, cleared. simpl.
  f_equal. f_equal. same_log.
Qed.

Lemma updateRoute_no_geometry (from to : string) (answers : Answers) (r1 r2 : GeoResult)
  (route0 : RoutePayload) (leg0 : LegPayload) (w : World) :
  first_result (answer_from answers) = Some r1 ->
  first_result (answer_to answers) = Some r2 ->
  first_leg (answer_route answers) = Some (route0, leg0) ->
  geometry_coordinates route0 = None ->
  updateRoute map_distance from to answers w
  = (Normal tt,
     {| shell := with_error (Some route_message)
                   (with_directions (map to_RouteStep (steps leg0)) (shell w));
        leaflet := cleared (leaflet w);
        effects := effects w ++ [Fetch (Nominatim from); Fetch (Nominatim to);
                                 Fetch (Osrm (to_Coordinates r1) (to_Coordinates r2));
                                 SetDirections (map to_RouteStep (steps leg0));
                                 ConsoleError "Error getting route:" TypeError;
                                 SetError (Some route_message)] |}).
Proof.
  intros E1 E2 E3 E4. unfold updateRoute, bind.
  rewrite (getCoordinates_found _ _ _ _ E1), (getCoordinates_found _ _ _ _ E2).
  unfold remove_route_layers, modify_map.
  rewrite (getRoute_leg _ _ _ _ _ _ E3), E4. unfold ret, logged, cleared. simpl.
  f_equal. f_equal. same_log.
Qed.

Lemma updateRoute_drawn (from to : string) (answers : Answers) (r1 r2 : GeoResult)
  (route0 : RoutePayload) (leg0 : LegPayload) (coordinates : list (number * number))
  (w : World) :
  first_result (answer_from answers) = Some r1 ->
  first_result (answer_to answers) = Some r2 ->
  first_leg (answer_route answers) = Some (route0, leg0) ->
  geometry_coordinates route0 = Some coordinates ->
  updateRoute map_distance from to answers w
  = (Normal tt,
     {| shell := with_directions (map to_RouteStep (steps leg0)) (shell w);
        leaflet :=
          {| layers := layers (cleared (leaflet w))
                         ++ route_layers map_distance from to (to_Coordinates r1)
                              (to_Coordinates r2) (map to_LatLng coordinates);
             viewport := FitBounds (map to_LatLng coordinates) (50, 50) |};
        effects := effects w ++ [Fetch (Nominatim from); Fetch (Nominatim to);
                                 Fetch (Osrm (to_Coordinates r1) (to_Coordinates r2));
                                 SetDirections (map to_RouteStep (steps leg0))] |}).
Proof.
  intros E1 E2 E3 E4. unfold updateRoute, bind.
  rewrite (getCoordinates_found _ _ _ _ E1), (getCoordinates_found _ _ _ _ E2).
  unfold remove_route_layers, modify_map.
  rewrite (getRoute_leg _ _ _ _ _ _ E3), E4.
  unfold addTo, fitBounds, modify_map, route_layers, airport_layers.
  rewrite <- route_distance_sum.
  destruct (num_gt (route_distance map_distance (map to_LatLng coordinates)) (lit 100000)).
  - rewrite forEach_airports. unfold logged, cleared. simpl.
    f_equal. f_equal; [f_equal; rewrite <- !app_assoc; reflexivity | same_log].
  - unfold ret, logged, cleared. simpl.
    f_equal. f_equal; [f_equal; rewrite <- !app_assoc; reflexivity | same_log].
Qed.


Lemma requests_app (es es' : list Effect) :
  requests (es ++ es') = requests es ++ requests es'.
Proof. unfold requests. apply flat_map_app. Qed.

(** *** The shell: submit *)

Lemma handleSubmit_run (w : World) :
  handleSubmit w
  = (Normal tt,
     {| shell := with_error (if truthy (origin (shell w)) && truthy (destination (shell w))
                             then None else Some input_message) (shell w);
        leaflet := leaflet w;
        effects := effects w ++ [SetError (if truthy (origin (shell w))
                                              && truthy (destination (shell w))
                                           then None else Some input_message)] |}).
Proof.
  run_eff. destruct (truthy (origin (shell w))), (truthy (destination (shell w))); reflexivity.
Qed.

(** C1. Whatever the state, [handleSubmit] with an empty origin or an empty
    destination sets the error to the message "Please enter both origin and
    destination" and does nothing else: the only effect is that one setter
    call, so no request is made, and the directions, the fields, the tab and
    the map stay as they were.  With both fields non-empty it clears the
    error, again with no request and no other change. *)
Theorem handleSubmit_sets_or_clears_error (w : World) :
  (origin (shell w) = "" \/ destination (shell w) = "" ->
   handleSubmit w
   = (Normal tt,
      {| shell := with_error (Some "Please enter both origin and destination") (shell w);
         leaflet := leaflet w;
         effects := effects w ++ [SetError (Some "Please enter both origin and destination")] |}))
  /\ (origin (shell w) <> "" /\ destination (shell w) <> "" ->
      handleSubmit w
      = (Normal tt,
         {| shell := with_error None (shell w);
            leaflet := leaflet w;
            effects := effects w ++ [SetError None] |}))
  /\ requests (effects (snd (handleSubmit w))) = requests (effects w)
  /\ directions (shell (snd (handleSubmit w))) = directions (shell w)
  /\ origin (shell (snd (handleSubmit w))) = origin (shell w)
  /\ destination (shell (snd (handleSubmit w))) = destination (shell w)
  /\ tabValue (shell (snd (handleSubmit w))) = tabValue (shell w)
  /\ leaflet (snd (handleSubmit w)) = leaflet w.
Proof.
  rewrite handleSubmit_run. cbn [snd shell leaflet effects].
  split; [|split].
  - intros [H|H]; apply truthy_false in H; rewrite H; rewrite ?andb_false_r; reflexivity.
  - intros [H1 H2]. apply truthy_true in H1, H2. rewrite H1, H2. reflexivity.
  - rewrite requests_app. cbn. rewrite app_nil_r. repeat split; reflexivity.
Qed.

(** *** Geocoding *)

(** C4. With a non-empty result array [getCoordinates] returns the first
    result's latitude and longitude and reports nothing.  With an empty
    array, or when the request fails, it logs the exception, sets the
    location message and returns [null] normally: nothing is thrown to the
    caller.  In [updateRoute], when either address is not found, the pass
    ends normally with the location message as the error, no routing request
    is made, and the map (layers and viewport, so in particular its markers)
    and the directions are untouched. *)
Theorem geocode_first_result_or_lookup_error
  (address from to : string) (answers : Answers) (w : World) :
  (forall r rest,
     getCoordinates address (GeoData (r :: rest)) w
     = (Normal (Some {| lat := parseFloat (geo_lat r); lng := parseFloat (geo_lon r) |}),
        logged [Fetch (Nominatim address)] w))
  /\ (forall answer, answer = GeoData [] \/ answer = GeoFailed ->
      getCoordinates address answer w
      = (Normal None,
         {| shell := with_error
                       (Some "Error finding location. Please try a different address.")
                       (shell w);
            leaflet := leaflet w;
            effects := effects w
                         ++ [Fetch (Nominatim address);
                             ConsoleError "Error getting coordinates:" (lookup_failure answer);
                             SetError
                               (Some "Error finding location. Please try a different address.")]
         |}))
  /\ (first_result (answer_from answers) = None \/ first_result (answer_to answers) = None ->
      fst (updateRoute map_distance from to answers w) = Normal tt
      /\ leaflet (snd (updateRoute map_distance from to answers w)) = leaflet w
      /\ directions (shell (snd (updateRoute map_distance from to answers w)))
         = directions (shell w)
      /\ error (shell (snd (updateRoute map_distance from to answers w)))
         = Some "Error finding location. Please try a different address."
      /\ requests (effects (snd (updateRoute map_distance from to answers w)))
         = requests (effects w) ++ [Nominatim from; Nominatim to]).
Proof.
  split; [|split].
  - intros r rest. apply getCoordinates_found. reflexivity.
  - intros answer [->| ->]; apply getCoordinates_not_found; reflexivity.
  - intro H. rewrite (updateRoute_not_geocoded _ _ _ _ H). cbn [fst snd].
    destruct (first_result (answer_from answers)) as [r1|] eqn:E1;
      destruct (first_result (answer_to answers)) as [r2|] eqn:E2;
      try (destruct H; discriminate).
    + rewrite (getCoordinates_found _ _ _ _ E1). cbn [snd].
      rewrite (getCoordinates_not_found _ _ _ E2).
      unfold logged; cbn [snd shell leaflet effects with_error error directions].
      rewrite <- ?app_assoc, !requests_app. cbn. repeat split; reflexivity.
    + rewrite (getCoordinates_not_found _ _ _ E1). cbn [snd].
      rewrite (getCoordinates_found _ _ _ _ E2).
      unfold logged; cbn [snd shell leaflet effects with_error error directions].
      rewrite <- ?app_assoc, !requests_app. cbn. repeat split; reflexivity.
    + rewrite (getCoordinates_not_found _ _ _ E1). cbn [snd].
      rewrite (getCoordinates_not_found _ _ _ E2).
      unfold logged; cbn [snd shell leaflet effects with_error error directions].
      rewrite <- ?app_assoc, !requests_app. cbn. repeat split; reflexivity.
Qed.


(** *** The route on the map *)

Lemma to_LatLng_nth (coordinates : list (number * number)) (i : nat) (lon lat : number) :
  nth_error coordinates i = Some (lon, lat) ->
  nth_error (map to_LatLng coordinates) i = Some (lat, lon).
Proof.
  intro H. rewrite nth_error_map, H. reflexivity.
Qed.

Lemma cleared_keeps_no_route_layer (m : LeafletMap) :
  filter is_route_layer (layers (cleared m)) = [].
Proof.
  unfold cleared. cbn [layers].
  induction (layers m) as [|l ls IH]; [reflexivity|].
  cbn [filter]. destruct (is_route_layer l) eqn:E; cbn [negb filter]; [exact IH|].
  rewrite E. exact IH.
Qed.

Lemma cleared_keeps_no_airport (m : LeafletMap) :
  filter is_airport_marker (layers (cleared m)) = [].
Proof.
  unfold cleared. cbn [layers].
  induction (layers m) as [|l ls IH]; [reflexivity|].
  cbn [filter]. destruct l as [|p [|] s|ps c k|s]; cbn; exact IH.
Qed.

(** C2. For a valid routing response (status [Ok], a first route with a
    first leg and a geometry) reached after both addresses were found, the
    sequence [getRoute] returns is the payload's coordinate list with each
    pair swapped, it is the one polyline the map holds afterwards, it has as
    many points as the payload, and its i-th point is [[lat, lon]] where the
    payload's i-th pair is [[lon, lat]]. *)
Theorem rendered_coordinates_swap_payload_pairs
  (from to : string) (answers : Answers) (r1 r2 : GeoResult)
  (route0 : RoutePayload) (leg0 : LegPayload) (coordinates : list (number * number))
  (w : World) :
  first_result (answer_from answers) = Some r1 ->
  first_result (answer_to answers) = Some r2 ->
  first_leg (answer_route answers) = Some (route0, leg0) ->
  geometry_coordinates route0 = Some coordinates ->
  fst (getRoute (to_Coordinates r1) (to_Coordinates r2) (answer_route answers) w)
  = Normal (Some (map (fun coord => (snd coord, fst coord)) coordinates))
  /\ filter (fun l => match l with Polyline _ _ _ => true | _ => false end)
       (layers (leaflet (snd (updateRoute map_distance from to answers w))))
     = [Polyline (map (fun coord => (snd coord, fst coord)) coordinates) "#2196F3" 5]
  /\ viewport (leaflet (snd (updateRoute map_distance from to answers w)))
     = FitBounds (map (fun coord => (snd coord, fst coord)) coordinates) (50, 50)
  /\ List.length (map (fun coord => (snd coord, fst coord)) coordinates)
     = List.length coordinates
  /\ (forall i lon lat,
        nth_error coordinates i = Some (lon, lat) ->
        nth_error (map (fun coord => (snd coord, fst coord)) coordinates) i = Some (lat, lon)).
Proof.
  intros E1 E2 E3 E4. repeat split.
  - rewrite (getRoute_leg _ _ _ _ _ _ E3), E4. reflexivity.
  - rewrite (updateRoute_drawn _ _ _ _ _ _ _ _ _ E1 E2 E3 E4).
    cbn [snd leaflet layers]. rewrite filter_app.
    assert (H : filter (fun l => match l with Polyline _ _ _ => true | _ => false end)
                  (layers (cleared (leaflet w))) = []).
    { generalize (cleared_keeps_no_route_layer (leaflet w)).
      induction (layers (cleared (leaflet w))) as [|l ls IH]; [reflexivity|].
      cbn [filter]. destruct l; cbn [is_route_layer]; intro H; try discriminate;
        exact (IH H). }
    rewrite H. unfold route_layers, airport_layers.
    destruct (num_gt _ _); reflexivity.
  - rewrite (updateRoute_drawn _ _ _ _ _ _ _ _ _ E1 E2 E3 E4). reflexivity.
  - apply length_map.
  - intros i lon lat H. exact (to_LatLng_nth _ _ _ _ H).
Qed.

Lemma segment_lengths_nth (points : list LatLng) (i : nat) (p q : LatLng) :
  nth_error points i = Some p ->
  nth_error points (S i) = Some q ->
  nth_error (segment_lengths map_distance points) i = Some (map_distance p q).
Proof.
  revert i. induction points as [|a rest IH]; intros i Hp Hq.
  - destruct i; discriminate.
  - destruct rest as [|b rest']; [destruct i; discriminate|].
    destruct i as [|i].
    + cbn in Hp, Hq. injection Hp as ->. injection Hq as ->. reflexivity.
    + cbn [segment_lengths nth_error]. apply IH; assumption.
Qed.

Lemma segment_lengths_length (points : list LatLng) :
  List.length (segment_lengths map_distance points) = List.length points - 1.
Proof.
  induction points as [|a rest IH]; [reflexivity|].
  destruct rest as [|b rest']; [reflexivity|].
  cbn [segment_lengths List.length] in *. lia.
Qed.

(** C3. For a resolved route, the distance [updateRoute] computes is the sum
    of [map.distance] over the consecutive pairs of polyline points (one term
    per pair, added from the first on).  When it is greater than 100000 the
    airport markers on the map afterwards are exactly the two fixed ones, DFW
    and DAL, whatever the query; otherwise the map holds no airport
    marker. *)
Theorem airports_added_iff_route_exceeds_100km
  (from to : string) (answers : Answers) (r1 r2 : GeoResult)
  (route0 : RoutePayload) (leg0 : LegPayload) (coordinates : list (number * number))
  (w : World) :
  first_result (answer_from answers) = Some r1 ->
  first_result (answer_to answers) = Some r2 ->
  first_leg (answer_route answers) = Some (route0, leg0) ->
  geometry_coordinates route0 = Some coordinates ->
  route_distance map_distance (map to_LatLng coordinates)
  = fold_left num_add (segment_lengths map_distance (map to_LatLng coordinates)) (lit 0)
  /\ List.length (segment_lengths map_distance (map to_LatLng coordinates))
     = List.length coordinates - 1
  /\ (forall i p q,
        nth_error (map to_LatLng coordinates) i = Some p ->
        nth_error (map to_LatLng coordinates) (S i) = Some q ->
        nth_error (segment_lengths map_distance (map to_LatLng coordinates)) i
        = Some (map_distance p q))
  /\ layers (leaflet (snd (updateRoute map_distance from to answers w)))
     = filter (fun l => negb (is_route_layer l)) (layers (leaflet w))
         ++ [ Marker (parseFloat (geo_lat r1), parseFloat (geo_lon r1)) DefaultIcon
                ("Start: " ++ from);
              Marker (parseFloat (geo_lat r2), parseFloat (geo_lon r2)) DefaultIcon
                ("End: " ++ to);
              Polyline (map to_LatLng coordinates) "#2196F3" 5 ]
         ++ (if num_gt (route_distance map_distance (map to_LatLng coordinates)) (lit 100000)
             then [ Marker (lit 32.8998, lit (-97.0403)) airportIcon "DFW Airport";
                    Marker (lit 32.8481, lit (-96.8512)) airportIcon "DAL Airport" ]
             else [])
  /\ filter is_airport_marker
       (layers (leaflet (snd (updateRoute map_distance from to answers w))))
     = if num_gt (route_distance map_distance (map to_LatLng coordinates)) (lit 100000)
       then [ Marker (lit 32.8998, lit (-97.0403)) airportIcon "DFW Airport";
              Marker (lit 32.8481, lit (-96.8512)) airportIcon "DAL Airport" ]
       else [].
Proof.
  intros E1 E2 E3 E4. repeat split.
  - apply route_distance_sum.
  - rewrite segment_lengths_length, length_map. reflexivity.
  - intros i p q. apply segment_lengths_nth.
  - rewrite (updateRoute_drawn _ _ _ _ _ _ _ _ _ E1 E2 E3 E4).
    cbn [snd leaflet layers]. unfold route_layers, airport_layers.
    rewrite <- route_distance_sum. destruct (num_gt _ _); reflexivity.
  - rewrite (updateRoute_drawn _ _ _ _ _ _ _ _ _ E1 E2 E3 E4).
    cbn [snd leaflet layers]. rewrite filter_app, cleared_keeps_no_airport.
    unfold route_layers, airport_layers. rewrite <- route_distance_sum.
    destruct (num_gt _ _); reflexivity.
Qed.


(** *** What a pass of [updateRoute] leaves in the shell *)

Lemma updateRoute_error (from to : string) (answers : Answers) (w : World) :
  error (shell (snd (updateRoute map_distance from to answers w)))
  = match first_result (answer_from answers), first_result (answer_to answers) with
    | Some _, Some _ =>
        match first_leg (answer_route answers) with
        | Some (route0, _) =>
            match geometry_coordinates route0 with
            | Some _ => error (shell w)
            | None => Some route_message
            end
        | None => Some route_message
        end
    | _, _ => Some lookup_message
    end.
Proof.
  destruct (first_result (answer_from answers)) as [r1|] eqn:E1;
    destruct (first_result (answer_to answers)) as [r2|] eqn:E2.
  - destruct (first_leg (answer_route answers)) as [[route0 leg0]|] eqn:E3.
    + destruct (geometry_coordinates route0) as [cs|] eqn:E4.
      * rewrite (updateRoute_drawn _ _ _ _ _ _ _ _ _ E1 E2 E3 E4). reflexivity.
      * rewrite (updateRoute_no_geometry _ _ _ _ _ _ _ _ E1 E2 E3 E4). reflexivity.
    + rewrite (updateRoute_no_leg _ _ _ _ _ _ E1 E2 E3). reflexivity.
  - rewrite updateRoute_not_geocoded by (right; exact E2). cbn [snd].
    rewrite (getCoordinates_found _ _ _ _ E1). cbn [snd].
    rewrite (getCoordinates_not_found _ _ _ E2). reflexivity.
  - rewrite updateRoute_not_geocoded by (left; exact E1). cbn [snd].
    rewrite (getCoordinates_not_found _ _ _ E1). cbn [snd].
    rewrite (getCoordinates_found _ _ _ _ E2). reflexivity.
  - rewrite updateRoute_not_geocoded by (left; exact E1). cbn [snd].
    rewrite (getCoordinates_not_found _ _ _ E1). cbn [snd].
    rewrite (getCoordinates_not_found _ _ _ E2). reflexivity.
Qed.

Lemma updateRoute_directions (from to : string) (answers : Answers) (w : World) :
  directions (shell (snd (updateRoute map_distance from to answers w)))
  = match first_result (answer_from answers), first_result (answer_to answers),
          first_leg (answer_route answers) with
    | Some _, Some _, Some (_, leg0) => map to_RouteStep (steps leg0)
    | _, _, _ => directions (shell w)
    end.
Proof.
  destruct (first_result (answer_from answers)) as [r1|] eqn:E1;
    destruct (first_result (answer_to answers)) as [r2|] eqn:E2.
  - destruct (first_leg (answer_route answers)) as [[route0 leg0]|] eqn:E3.
    + destruct (geometry_coordinates route0) as [cs|] eqn:E4.
      * rewrite (updateRoute_drawn _ _ _ _ _ _ _ _ _ E1 E2 E3 E4). reflexivity.
      * rewrite (updateRoute_no_geometry _ _ _ _ _ _ _ _ E1 E2 E3 E4). reflexivity.
    + rewrite (updateRoute_no_leg _ _ _ _ _ _ E1 E2 E3). reflexivity.
  - rewrite updateRoute_not_geocoded by (right; exact E2). cbn [snd].
    rewrite (getCoordinates_found _ _ _ _ E1). cbn [snd].
    rewrite (getCoordinates_not_found _ _ _ E2). reflexivity.
  - rewrite updateRoute_not_geocoded by (left; exact E1). cbn [snd].
    rewrite (getCoordinates_not_found _ _ _ E1). cbn [snd].
    rewrite (getCoordinates_found _ _ _ _ E2). reflexivity.
  - rewrite updateRoute_not_geocoded by (left; exact E1). cbn [snd].
    rewrite (getCoordinates_not_found _ _ _ E1). cbn [snd].
    rewrite (getCoordinates_not_found _ _ _ E2). reflexivity.
Qed.

Lemma first_leg_not_Ok (data : RouteData) :
  code data <> "Ok" -> first_leg (RouteJson data) = None.
Proof.
  intro H. cbn. destruct (String.eqb_spec (code data) "Ok"); [contradiction|reflexivity].
Qed.

(** *** A routing answer that is not Ok *)

(** C5, as the code has it.  When both addresses are found and the routing
    answer has a status other than [Ok], the pass logs the exception and
    sets the route message; the markers and polylines that were on the map
    are gone by then, removed before the routing request was made, every
    other layer is still there, nothing was added, and the viewport and the
    directions are as before. *)
Theorem failed_route_status_clears_prior_route_layers
  (from to : string) (answers : Answers) (r1 r2 : GeoResult) (data : RouteData) (w : World) :
  first_result (answer_from answers) = Some r1 ->
  first_result (answer_to answers) = Some r2 ->
  answer_route answers = RouteJson data ->
  code data <> "Ok" ->
  fst (updateRoute map_distance from to answers w) = Normal tt
  /\ error (shell (snd (updateRoute map_distance from to answers w)))
     = Some "Error finding route. Please try again."
  /\ effects (snd (updateRoute map_distance from to answers w))
     = effects w ++ [Fetch (Nominatim from); Fetch (Nominatim to);
                     Fetch (Osrm (to_Coordinates r1) (to_Coordinates r2));
                     ConsoleError "Error getting route:" (JsError "Route not found");
                     SetError (Some "Error finding route. Please try again.")]
  /\ layers (leaflet (snd (updateRoute map_distance from to answers w)))
     = filter (fun l => negb (is_route_layer l)) (layers (leaflet w))
  /\ filter is_route_layer (layers (leaflet (snd (updateRoute map_distance from to answers w))))
     = []
  /\ viewport (leaflet (snd (updateRoute map_distance from to answers w)))
     = viewport (leaflet w)
  /\ directions (shell (snd (updateRoute map_distance from to answers w)))
     = directions (shell w).
Proof.
  intros E1 E2 E3 Hcode.
  assert (E4 : first_leg (answer_route answers) = None)
    by (rewrite E3; apply first_leg_not_Ok; exact Hcode).
  rewrite (updateRoute_no_leg _ _ _ _ _ _ E1 E2 E4). cbn [fst snd shell leaflet effects].
  repeat split.
  - rewrite E3. cbn [route_failure].
    destruct (String.eqb_spec (code data) "Ok"); [contradiction|reflexivity].
  - apply cleared_keeps_no_route_layer.
Qed.


(** *** The directions list *)

Lemma js_or_present (s b : string) : s <> "" -> js_or (Some s) b = s.
Proof.
  intro H. cbn. apply truthy_true in H. rewrite H. reflexivity.
Qed.

Lemma js_or_empty (b : string) : js_or (Some "") b = b.
Proof. reflexivity. Qed.

(** C6, as the code has it.  For a successful routing response the
    directions list is the image of the step list of the first leg of the
    first route, entry by entry and in order: the entry's distance is
    [Math.round] of the step distance, and its instruction is the maneuver
    instruction when that is a non-empty string, and the road name when the
    maneuver instruction is missing or is the empty string. *)
Theorem directions_built_from_first_leg_steps
  (start finish : Coordinates) (answer : RouteResponse)
  (route0 : RoutePayload) (leg0 : LegPayload) (coordinates : list (number * number))
  (w : World) :
  first_leg answer = Some (route0, leg0) ->
  geometry_coordinates route0 = Some coordinates ->
  List.length (directions (shell (snd (getRoute start finish answer w))))
  = List.length (steps leg0)
  /\ (forall i step,
        nth_error (steps leg0) i = Some step ->
        exists entry,
          nth_error (directions (shell (snd (getRoute start finish answer w)))) i = Some entry
          /\ distance entry = Math_round (step_distance step)
          /\ (maneuver_instruction step = None \/ maneuver_instruction step = Some "" ->
              instruction entry = step_name step)
          /\ (forall s, maneuver_instruction step = Some s -> s <> "" ->
              instruction entry = s)).
Proof.
  intros E3 E4. rewrite (getRoute_leg _ _ _ _ _ _ E3), E4.
  cbn [snd shell directions with_directions]. split.
  - apply length_map.
  - intros i step H. exists (to_RouteStep step). split; [|split; [|split]].
    + rewrite nth_error_map, H. reflexivity.
    + reflexivity.
    + intros [H0|H0]; cbn [to_RouteStep instruction]; rewrite H0; reflexivity.
    + intros s H0 Hs. cbn [to_RouteStep instruction]. rewrite H0. apply js_or_present, Hs.
Qed.

Lemma mapi_from_length {A B : Type} (f : A -> nat -> B) (l : list A) (i : nat) :
  List.length (mapi_from f l i) = List.length l.
Proof.
  revert i. induction l as [|x rest IH]; intro i; cbn; [reflexivity|].
  rewrite IH. reflexivity.
Qed.

Lemma mapi_from_nth {A B : Type} (f : A -> nat -> B) (l : list A) (i k : nat) (x : A) :
  nth_error l k = Some x -> nth_error (mapi_from f l i) k = Some (f x (i + k)).
Proof.
  revert i k. induction l as [|y rest IH]; intros i k H.
  - destruct k; discriminate.
  - destruct k as [|k]; cbn in *.
    + injection H as ->. rewrite Nat.add_0_r. reflexivity.
    + rewrite (IH (S i) k H). f_equal. f_equal. lia.
Qed.

(** C7. With the Directions tab active: a non-empty step sequence is
    rendered as a list with exactly one entry per step, in order, the entry
    showing the step's instruction and its distance followed by " meters";
    an empty sequence is rendered as the placeholder prompt. *)
Theorem directions_tab_lists_each_step (s : Shell) :
  tabValue s = 1 ->
  (directions s <> [] ->
   exists items,
     directions_tab s = Some (StepList items)
     /\ List.length items = List.length (directions s)
     /\ forall i step,
          nth_error (directions s) i = Some step ->
          exists item,
            nth_error items i = Some item
            /\ primary item = instruction step
            /\ secondary item = (num_toString (distance step) ++ " meters")%string)
  /\ (directions s = [] ->
      directions_tab s
      = Some (Placeholder
                ("Enter a destination and click " ++ String (ascii_of_nat 34) "Get Directions"
                   ++ String (ascii_of_nat 34) " to see turn-by-turn directions"))).
Proof.
  intro Htab. unfold directions_tab, TabPanel. rewrite Htab. cbn [Nat.eqb].
  split.
  - intro Hne. unfold directions_view.
    destruct (directions s) as [|d ds] eqn:E; [contradiction|].
    cbn [List.length Nat.ltb Nat.leb].
    eexists. split; [reflexivity|]. split.
    + unfold mapi. rewrite mapi_from_length. reflexivity.
    + intros i step H. unfold mapi.
      eexists. split; [exact (mapi_from_nth _ _ 0 i step H)|]. split; reflexivity.
  - intro E. unfold directions_view. rewrite E. reflexivity.
Qed.


(** *** Which failure is surfaced *)

Lemma resolves_false_route (answers : Answers) (r1 r2 : GeoResult) :
  first_result (answer_from answers) = Some r1 ->
  first_result (answer_to answers) = Some r2 ->
  resolves answers = false ->
  match first_leg (answer_route answers) with
  | Some (route0, _) => geometry_coordinates route0 = None
  | None => True
  end.
Proof.
  intros E1 E2. unfold resolves. rewrite E1, E2.
  destruct (first_leg (answer_route answers)) as [[route0 leg0]|]; [|trivial].
  destruct (geometry_coordinates route0); [discriminate|reflexivity].
Qed.

(** C8. In every pass the request for the destination is made after the
    origin's lookup has failed and been reported.  When both lookups fail
    the location message is set twice, the second call being the
    destination's, and it is the error left.  In general the error left is
    the message of the last call that failed: the location message when
    either lookup failed (no routing request follows), the route message
    when both addresses were found and the routing call failed. *)
Theorem destination_geocoded_after_origin_failure
  (from to : string) (answers : Answers) (w : World) :
  (first_result (answer_from answers) = None ->
   exists rest,
     effects (snd (updateRoute map_distance from to answers w))
     = effects w
         ++ [Fetch (Nominatim from);
             ConsoleError "Error getting coordinates:" (lookup_failure (answer_from answers));
             SetError (Some "Error finding location. Please try a different address.")]
         ++ Fetch (Nominatim to) :: rest)
  /\ (first_result (answer_from answers) = None ->
      first_result (answer_to answers) = None ->
      effects (snd (updateRoute map_distance from to answers w))
      = effects w
          ++ [Fetch (Nominatim from);
              ConsoleError "Error getting coordinates:" (lookup_failure (answer_from answers));
              SetError (Some "Error finding location. Please try a different address.");
              Fetch (Nominatim to);
              ConsoleError "Error getting coordinates:" (lookup_failure (answer_to answers));
              SetError (Some "Error finding location. Please try a different address.")])
  /\ (first_result (answer_from answers) = None \/ first_result (answer_to answers) = None ->
      error (shell (snd (updateRoute map_distance from to answers w)))
      = Some "Error finding location. Please try a different address.")
  /\ (forall r1 r2,
        first_result (answer_from answers) = Some r1 ->
        first_result (answer_to answers) = Some r2 ->
        resolves answers = false ->
        error (shell (snd (updateRoute map_distance from to answers w)))
        = Some "Error finding route. Please try again.")
  /\ (resolves answers = true ->
      error (shell (snd (updateRoute map_distance from to answers w))) = error (shell w)).
Proof.
  split; [|split; [|split; [|split]]].
  - intro E1. rewrite updateRoute_not_geocoded by (left; exact E1). cbn [snd].
    rewrite (getCoordinates_not_found _ _ _ E1). cbn [snd].
    destruct (first_result (answer_to answers)) as [r2|] eqn:E2.
    + rewrite (getCoordinates_found _ _ _ _ E2). exists []. unfold logged. cbn.
      rewrite <- app_assoc. reflexivity.
    + rewrite (getCoordinates_not_found _ _ _ E2). eexists. cbn.
      rewrite <- app_assoc. reflexivity.
  - intros E1 E2. rewrite updateRoute_not_geocoded by (left; exact E1). cbn [snd].
    rewrite (getCoordinates_not_found _ _ _ E1). cbn [snd].
    rewrite (getCoordinates_not_found _ _ _ E2). cbn.
    rewrite <- app_assoc. reflexivity.
  - intro H. rewrite updateRoute_error.
    destruct H as [H|H]; rewrite H; [reflexivity|].
    destruct (first_result (answer_from answers)); reflexivity.
  - intros r1 r2 E1 E2 H. rewrite updateRoute_error, E1, E2.
    pose proof (resolves_false_route _ _ _ E1 E2 H) as G.
    destruct (first_leg (answer_route answers)) as [[route0 leg0]|]; [|reflexivity].
    rewrite G. reflexivity.
  - intro H. rewrite updateRoute_error. unfold resolves in H.
    destruct (first_result (answer_from answers)); [|discriminate].
    destruct (first_result (answer_to answers)); [|discriminate].
    destruct (first_leg (answer_route answers)) as [[route0 leg0]|]; [|discriminate].
    destruct (geometry_coordinates route0); [reflexivity|discriminate].
Qed.

(** *** The error slot over time *)

Lemma updateRoute_never_clears (from to : string) (answers : Answers) (w : World) :
  error (shell (snd (updateRoute map_distance from to answers w))) = error (shell w)
  \/ error (shell (snd (updateRoute map_distance from to answers w))) = Some lookup_message
  \/ error (shell (snd (updateRoute map_distance from to answers w))) = Some route_message.
Proof.
  rewrite updateRoute_error.
  destruct (first_result (answer_from answers)); [|right; left; reflexivity].
  destruct (first_result (answer_to answers)); [|right; left; reflexivity].
  destruct (first_leg (answer_route answers)) as [[route0 leg0]|]; [|right; right; reflexivity].
  destruct (geometry_coordinates route0); [left|right; right]; reflexivity.
Qed.

Lemma resolved_pass_keeps_error (from to : string) (answers : Answers) (w : World) :
  resolves answers = true ->
  error (shell (snd (updateRoute map_distance from to answers w))) = error (shell w).
Proof.
  intro H. rewrite updateRoute_error. unfold resolves in H.
  destruct (first_result (answer_from answers)); [|discriminate].
  destruct (first_result (answer_to answers)); [|discriminate].
  destruct (first_leg (answer_route answers)) as [[route0 leg0]|]; [|discriminate].
  destruct (geometry_coordinates route0); [reflexivity|discriminate].
Qed.

Lemma render_error (answers : Answers) (w : World) :
  error (shell (after map_distance (Render answers) w))
  = if truthy (origin (shell w)) && truthy (destination (shell w))
    then error (shell (snd (updateRoute map_distance (origin (shell w))
                              (destination (shell w)) answers w)))
    else error (shell w).
Proof.
  unfold after, perform, bind, get_shell, RouteMap, spawn, ret.
  destruct (truthy (origin (shell w)) && truthy (destination (shell w))); reflexivity.
Qed.

(** C9. A pass that resolves leaves the error as it was; whatever the
    answers, a pass either leaves the error or sets one of the two failure
    messages, so it never clears it.  Of all the things that can happen to
    the widget, the only one that turns a set error into no error is
    [handleSubmit] with both fields non-empty.  Hence through any sequence
    of resolving passes the error, and with it the banner, stays what the
    failed attempt left. *)
Theorem error_cleared_only_by_submit :
  (forall from to answers w,
     resolves answers = true ->
     error (shell (snd (updateRoute map_distance from to answers w))) = error (shell w))
  /\ (forall from to answers w,
        error (shell (snd (updateRoute map_distance from to answers w))) = error (shell w)
        \/ error (shell (snd (updateRoute map_distance from to answers w)))
           = Some "Error finding location. Please try a different address."
        \/ error (shell (snd (updateRoute map_distance from to answers w)))
           = Some "Error finding route. Please try again.")
  /\ (forall a w e,
        error (shell w) = Some e ->
        error (shell (after map_distance a w)) = None ->
        a = Submit /\ origin (shell w) <> "" /\ destination (shell w) <> "")
  /\ (forall passes w,
        forallb resolving_pass passes = true ->
        error (shell (after_all map_distance passes w)) = error (shell w)
        /\ Alert (shell (after_all map_distance passes w)) = Alert (shell w)).
Proof.
  split; [|split; [|split]].
  - intros from to answers w. apply resolved_pass_keeps_error.
  - intros from to answers w. apply updateRoute_never_clears.
  - intros a w e He Hnone. destruct a as [v|v|t| |answers].
    + cbn in Hnone. congruence.
    + cbn in Hnone. congruence.
    + cbn in Hnone. congruence.
    + unfold after, perform in Hnone. rewrite handleSubmit_run in Hnone.
      cbn [snd shell error with_error] in Hnone.
      destruct (truthy (origin (shell w))) eqn:T1;
        destruct (truthy (destination (shell w))) eqn:T2; cbn in Hnone; try discriminate.
      apply truthy_true in T1, T2. repeat split; assumption.
    + rewrite render_error in Hnone.
      destruct (truthy (origin (shell w)) && truthy (destination (shell w))); [|congruence].
      destruct (updateRoute_never_clears (origin (shell w)) (destination (shell w)) answers w)
        as [H|[H|H]]; rewrite H in Hnone; congruence.
  - intros passes. induction passes as [|a rest IH]; intros w H.
    + split; reflexivity.
    + cbn [forallb] in H. apply andb_true_iff in H. destruct H as [Hres Hrest].
      destruct a as [v|v|t| |answers]; try discriminate. cbn [resolving_pass] in Hres.
      cbn [after_all fold_left].
      assert (Hstep : error (shell (after map_distance (Render answers) w)) = error (shell w)).
      { rewrite render_error.
        destruct (truthy (origin (shell w)) && truthy (destination (shell w)));
          [apply resolved_pass_keeps_error; exact Hres|reflexivity]. }
      destruct (IH (after map_distance (Render answers) w) Hrest) as [IH1 IH2].
      unfold after_all in *. rewrite IH1, IH2. unfold Alert. rewrite Hstep.
      split; reflexivity.
Qed.

(** *** Directions after a failed attempt *)

(** C10, as the code has it.  When a pass fails before the step list has
    been extracted, the directions keep their previous value: that is the
    case when either address is not found, when the routing request fails,
    when the status is not [Ok], and when the payload has no first route or
    the first route has no first leg. *)
Theorem directions_kept_when_attempt_fails_before_steps
  (from to : string) (answers : Answers) (w : World) :
  first_result (answer_from answers) = None
  \/ first_result (answer_to answers) = None
  \/ answer_route answers = RouteFailed
  \/ (exists data, answer_route answers = RouteJson data
                   /\ (code data <> "Ok"
                       \/ routes data = []
                       \/ exists route0 rest, routes data = route0 :: rest /\ legs route0 = [])) ->
  directions (shell (snd (updateRoute map_distance from to answers w)))
  = directions (shell w).
Proof.
  intro H. rewrite updateRoute_directions.
  destruct (first_result (answer_from answers)); [|reflexivity].
  destruct (first_result (answer_to answers)); [|reflexivity].
  assert (E : first_leg (answer_route answers) = None).
  { destruct H as [H|[H|[H|[data [H1 H]]]]]; try discriminate.
    - rewrite H. reflexivity.
    - rewrite H1. destruct H as [H|[H|[route0 [rest [H2 H3]]]]].
      + apply first_leg_not_Ok, H.
      + cbn. rewrite H. destruct (code data =? "Ok"); reflexivity.
      + cbn. rewrite H2. cbn. rewrite H3. destruct (code data =? "Ok"); reflexivity. }
  rewrite E. reflexivity.
Qed.


(** *** Further facts about one pass *)

Lemma updateRoute_lookup_failed (from to : string) (answers : Answers) (w : World) :
  first_result (answer_from answers) = None \/ first_result (answer_to answers) = None ->
  shell (snd (updateRoute map_distance from to answers w))
  = with_error (Some lookup_message) (shell w)
  /\ leaflet (snd (updateRoute map_distance from to answers w)) = leaflet w
  /\ requests (effects (snd (updateRoute map_distance from to answers w)))
     = requests (effects w) ++ [Nominatim from; Nominatim to].
Proof.
  intro H. rewrite (updateRoute_not_geocoded _ _ _ _ H). cbn [snd].
  destruct (first_result (answer_from answers)) as [r1|] eqn:E1;
    destruct (first_result (answer_to answers)) as [r2|] eqn:E2;
    try (destruct H; discriminate).
  - rewrite (getCoordinates_found _ _ _ _ E1). cbn [snd].
    rewrite (getCoordinates_not_found _ _ _ E2).
    unfold logged; cbn [snd shell leaflet effects].
    rewrite <- ?app_assoc, !requests_app. repeat split; reflexivity.
  - rewrite (getCoordinates_not_found _ _ _ E1). cbn [snd].
    rewrite (getCoordinates_found _ _ _ _ E2).
    unfold logged; cbn [snd shell leaflet effects].
    rewrite <- ?app_assoc, !requests_app. repeat split; reflexivity.
  - rewrite (getCoordinates_not_found _ _ _ E1). cbn [snd].
    rewrite (getCoordinates_not_found _ _ _ E2).
    unfold logged; cbn [snd shell leaflet effects].
    rewrite <- ?app_assoc, !requests_app. repeat split; reflexivity.
Qed.

Ltac pass_cases answers :=
  let r1 := fresh "r1" in
  let r2 := fresh "r2" in
  let route0 := fresh "route0" in
  let leg0 := fresh "leg0" in
  let cs := fresh "cs" in
  let E1 := fresh "E1" in
  let E2 := fresh "E2" in
  let E3 := fresh "E3" in
  let E4 := fresh "E4" in
  let L := fresh "L" in
  destruct (first_result (answer_from answers)) as [r1|] eqn:E1;
  [ destruct (first_result (answer_to answers)) as [r2|] eqn:E2;
    [ destruct (first_leg (answer_route answers)) as [[route0 leg0]|] eqn:E3;
      [ destruct (geometry_coordinates route0) as [cs|] eqn:E4;
        [ rewrite (updateRoute_drawn _ _ _ _ _ _ _ _ _ E1 E2 E3 E4)
        | rewrite (updateRoute_no_geometry _ _ _ _ _ _ _ _ E1 E2 E3 E4) ]
      | rewrite (updateRoute_no_leg _ _ _ _ _ _ E1 E2 E3) ]
    | match goal with
      | |- context [updateRoute _ ?from ?to answers ?w] =>
          destruct (updateRoute_lookup_failed from to answers w (or_intror E2)) as [L [? ?]]
      end ]
  | match goal with
    | |- context [updateRoute _ ?from ?to answers ?w] =>
        destruct (updateRoute_lookup_failed from to answers w (or_introl E1)) as [L [? ?]]
    end ].

Lemma updateRoute_fields (from to : string) (answers : Answers) (w : World) :
  origin (shell (snd (updateRoute map_distance from to answers w))) = origin (shell w)
  /\ destination (shell (snd (updateRoute map_distance from to answers w)))
     = destination (shell w)
  /\ tabValue (shell (snd (updateRoute map_distance from to answers w)))
     = tabValue (shell w).
Proof.
  pass_cases answers; try (rewrite L); repeat split; reflexivity.
Qed.

Lemma updateRoute_requests (from to : string) (answers : Answers) (w : World) :
  requests (effects (snd (updateRoute map_distance from to answers w)))
  = requests (effects w)
      ++ [Nominatim from; Nominatim to]
      ++ match first_result (answer_from answers), first_result (answer_to answers) with
         | Some r1, Some r2 => [Osrm (to_Coordinates r1) (to_Coordinates r2)]
         | _, _ => []
         end.
Proof.
  pass_cases answers; cbn [snd effects]; rewrite ?requests_app; try reflexivity;
    cbn [app]; assumption.
Qed.

Lemma RouteMap_run (from to : string) (answers : Answers) (w : World) :
  RouteMap map_distance from to answers w
  = (Normal tt,
     if truthy from && truthy to then snd (updateRoute map_distance from to answers w)
     else w).
Proof.
  unfold RouteMap, spawn, ret. destruct (truthy from && truthy to); reflexivity.
Qed.

Lemma filter_idempotent {A : Type} (f : A -> bool) (l : list A) :
  filter f (filter f l) = filter f l.
Proof.
  induction l as [|x rest IH]; [reflexivity|].
  cbn [filter]. destruct (f x) eqn:E; cbn [filter]; rewrite ?E, IH; reflexivity.
Qed.


(** *** When the resolver runs, and what it asks for *)

(** X1. [RouteMap] with an empty [from] or an empty [to] does nothing at
    all: the world is left as it was, so no request is made for an empty
    query.  With both non-empty the pass asks the geocoder for [from], then
    for [to], and then, only when both answers have a first result, the
    router, with the coordinates parsed from those two results; it makes no
    other request. *)
Theorem route_map_requests (from to : string) (answers : Answers) (w : World) :
  fst (RouteMap map_distance from to answers w) = Normal tt
  /\ (from = "" \/ to = "" -> snd (RouteMap map_distance from to answers w) = w)
  /\ (from <> "" /\ to <> "" ->
      requests (effects (snd (RouteMap map_distance from to answers w)))
      = requests (effects w)
          ++ [Nominatim from; Nominatim to]
          ++ match first_result (answer_from answers), first_result (answer_to answers) with
             | Some r1, Some r2 =>
                 [Osrm {| lat := parseFloat (geo_lat r1); lng := parseFloat (geo_lon r1) |}
                       {| lat := parseFloat (geo_lat r2); lng := parseFloat (geo_lon r2) |}]
             | _, _ => []
             end).
Proof.
  rewrite RouteMap_run. cbn [fst snd]. split; [reflexivity|]. split.
  - intros [H|H]; apply truthy_false in H; rewrite H; rewrite ?andb_false_r; reflexivity.
  - intros [H1 H2]. apply truthy_true in H1, H2. rewrite H1, H2. cbn [andb].
    apply updateRoute_requests.
Qed.

(** X2. [getRoute] never throws, whatever the answer: it ends normally with
    [null] or with a polyline.  With [null] the failure has been logged to
    the console and the route message set, in that order and as the last
    two effects.  With a polyline its only effects are the request and the
    directions being set, and the error is as it was.  In both cases the map
    is untouched and exactly one request, the routing one, has been made. *)
Theorem getRoute_catches_and_reports
  (start finish : Coordinates) (answer : RouteResponse) (w : World) :
  leaflet (snd (getRoute start finish answer w)) = leaflet w
  /\ requests (effects (snd (getRoute start finish answer w)))
     = requests (effects w) ++ [Osrm start finish]
  /\ ((fst (getRoute start finish answer w) = Normal None
       /\ error (shell (snd (getRoute start finish answer w)))
          = Some "Error finding route. Please try again."
       /\ exists before e,
            effects (snd (getRoute start finish answer w))
            = before ++ [ConsoleError "Error getting route:" e;
                         SetError (Some "Error finding route. Please try again.")])
      \/ (exists points,
            fst (getRoute start finish answer w) = Normal (Some points)
            /\ error (shell (snd (getRoute start finish answer w))) = error (shell w)
            /\ effects (snd (getRoute start finish answer w))
               = effects w
                   ++ [Fetch (Osrm start finish);
                       SetDirections
                         (directions (shell (snd (getRoute start finish answer w))))])).
Proof.
  destruct (first_leg answer) as [[route0 leg0]|] eqn:E3.
  - rewrite (getRoute_leg _ _ _ _ _ _ E3).
    destruct (geometry_coordinates route0) as [cs|]; cbn [fst snd shell leaflet effects].
    + split; [reflexivity|]. split; [rewrite requests_app; reflexivity|].
      right. exists (map to_LatLng cs). repeat split; reflexivity.
    + split; [reflexivity|]. split; [rewrite requests_app; reflexivity|].
      left. split; [reflexivity|]. split; [reflexivity|].
      exists (effects w ++ [Fetch (Osrm start finish);
                            SetDirections (map to_RouteStep (steps leg0))]), TypeError.
      rewrite <- app_assoc. reflexivity.
  - rewrite (getRoute_no_leg _ _ _ _ E3). cbn [fst snd shell leaflet effects].
    split; [reflexivity|]. split; [rewrite requests_app; reflexivity|].
    left. split; [reflexivity|]. split; [reflexivity|].
    exists (effects w ++ [Fetch (Osrm start finish)]), (route_failure answer).
    rewrite <- app_assoc. reflexivity.
Qed.

(** *** The error slot and the banner *)

Lemma after_error_known (a : Action) (w : World) :
  known_error (error (shell w)) ->
  known_error (error (shell (after map_distance a w))).
Proof.
  intro H. destruct a as [v|v|t| |answers].
  - exact H.
  - exact H.
  - exact H.
  - unfold after, perform. rewrite handleSubmit_run. cbn [snd shell error with_error].
    destruct (truthy (origin (shell w)) && truthy (destination (shell w)));
      [left|right; left]; reflexivity.
  - rewrite render_error.
    destruct (truthy (origin (shell w)) && truthy (destination (shell w))); [|exact H].
    destruct (updateRoute_never_clears (origin (shell w)) (destination (shell w)) answers w)
      as [G|[G|G]]; rewrite G; [exact H| right; right; left | right; right; right]; reflexivity.
Qed.

Lemma known_error_banner (s : Shell) : known_error (error s) -> Alert s = error s.
Proof.
  unfold Alert. intros [H|[H|[H|H]]]; rewrite H; reflexivity.
Qed.

(** X3. An invariant of the widget.  If the error slot holds nothing or one
    of the three fixed messages, as it does when [App] is mounted, then
    after any sequence of typing, tab changes, submits and renderings of
    [RouteMap], with any answers from the services, it still does; and the
    banner then shows exactly the content of the slot, so an error that is
    set is always visible. *)
Theorem error_slot_holds_fixed_messages (acts : list Action) (w : World) :
  known_error (error (shell w)) ->
  known_error (error (shell (after_all map_distance acts w)))
  /\ banner (App (shell (after_all map_distance acts w)))
     = error (shell (after_all map_distance acts w)).
Proof.
  intro H.
  assert (K : known_error (error (shell (after_all map_distance acts w)))).
  { revert w H. induction acts as [|a rest IH]; intros w H; [exact H|].
    cbn [after_all fold_left]. apply (IH (after map_distance a w)).
    apply after_error_known, H. }
  split; [exact K|]. cbn [App banner]. apply known_error_banner, K.
Qed.

(** *** The two text fields *)

Lemma has_error_after_submit (w : World) :
  has_error (shell (snd (handleSubmit w)))
  = negb (truthy (origin (shell w)) && truthy (destination (shell w))).
Proof.
  rewrite handleSubmit_run. cbn [snd shell]. unfold has_error. cbn [error with_error].
  destruct (truthy (origin (shell w)) && truthy (destination (shell w))); reflexivity.
Qed.

(** X4. Right after [handleSubmit], a text field is flagged as erroneous
    exactly when it is empty: an empty origin flags the Origin field, an
    empty destination flags the Destination field, and a filled field is
    never flagged, also when the other one is empty. *)
Theorem submit_flags_exactly_the_empty_fields (w : World) :
  (field_error (origin_field (App (shell (snd (handleSubmit w))))) = true
   <-> origin (shell w) = "")
  /\ (field_error (destination_field (App (shell (snd (handleSubmit w))))) = true
      <-> destination (shell w) = "").
Proof.
  cbn [App origin_field destination_field field_error].
  rewrite has_error_after_submit. rewrite handleSubmit_run. cbn [snd shell origin destination with_error].
  split.
  - rewrite <- truthy_false.
    destruct (truthy (origin (shell w))), (truthy (destination (shell w)));
      cbn; split; congruence.
  - rewrite <- truthy_false.
    destruct (truthy (origin (shell w))), (truthy (destination (shell w)));
      cbn; split; congruence.
Qed.



(** *** Tabs *)

(** X6. The two tab panels are never shown together.  After
    [handleTabChange t] the Map panel, holding [RouteMap] with the current
    fields as [from] and [to], is rendered exactly when [t] is 0, the
    Directions panel exactly when [t] is 1, a panel is hidden exactly when
    its children are not rendered, and for any other [t] neither panel is
    rendered.  Changing the tab touches no other cell of the state, the map
    or the network. *)
Theorem tab_change_shows_one_panel (t : nat) (w : World) :
  shell (snd (handleTabChange t w)) = with_tabValue t (shell w)
  /\ leaflet (snd (handleTabChange t w)) = leaflet w
  /\ requests (effects (snd (handleTabChange t w))) = requests (effects w)
  /\ map_panel (App (shell (snd (handleTabChange t w))))
     = (if TabPanel_hidden t 0 then None
        else Some {| prop_from := origin (shell w); prop_to := destination (shell w) |})
  /\ directions_panel (App (shell (snd (handleTabChange t w))))
     = (if TabPanel_hidden t 1 then None else Some (directions_view (directions (shell w))))
  /\ (TabPanel_hidden t 0 = false <-> t = 0)
  /\ (TabPanel_hidden t 1 = false <-> t = 1)
  /\ (map_panel (App (shell (snd (handleTabChange t w)))) = None
      \/ directions_panel (App (shell (snd (handleTabChange t w)))) = None).
Proof.
  unfold handleTabChange. run_eff. rewrite requests_app. cbn [requests flat_map app].
  rewrite app_nil_r. unfold directions_tab, TabPanel, TabPanel_hidden.
  cbn [tabValue with_tabValue origin destination directions].
  repeat split; try reflexivity.
  - destruct (Nat.eqb_spec t 0); reflexivity.
  - destruct (Nat.eqb_spec t 1); reflexivity.
  - destruct (Nat.eqb_spec t 0); cbn; congruence.
  - destruct (Nat.eqb_spec t 0); cbn; congruence.
  - destruct (Nat.eqb_spec t 1); cbn; congruence.
  - destruct (Nat.eqb_spec t 1); cbn; congruence.
  - destruct t as [|[|t]]; cbn; auto.
Qed.

(** *** The list of steps *)

(** X7. In the rendered list the keys are the positions 0, 1, 2, ... in
    order, and every item but the last carries a divider: the item at
    position [i] has one exactly when [i + 1] is less than the number of
    steps. *)
Theorem list_items_keys_and_dividers
  (steps_shown : list RouteStep) (items : list ListItem) :
  directions_view steps_shown = StepList items ->
  List.length items = List.length steps_shown
  /\ forall i item,
       nth_error items i = Some item ->
       key item = i /\ (divider item = true <-> S i < List.length steps_shown).
Proof.
  unfold directions_view.
  destruct (0 <? List.length steps_shown)%nat; [|discriminate].
  intro H. injection H as <-. unfold mapi. split; [apply mapi_from_length|].
  intros i item H.
  assert (Hi : i < List.length steps_shown).
  { rewrite <- (mapi_from_length
                  (fun step index =>
                     {| key := index;
                        divider := negb (index =? List.length steps_shown - 1)%nat;
                        primary := instruction step;
                        secondary := num_toString (distance step) ++ " meters" |})
                  steps_shown 0).
    apply nth_error_Some. rewrite H. discriminate. }
  destruct (nth_error steps_shown i) as [step|] eqn:E;
    [|apply nth_error_None in E; lia].
  rewrite (mapi_from_nth _ _ 0 i step E) in H. injection H as <-.
  cbn [key divider Nat.add]. split; [reflexivity|].
  destruct (Nat.eqb_spec i (List.length steps_shown - 1)); cbn [negb]; split; intro G;
    try discriminate; try reflexivity; lia.
Qed.

Lemma mapi_from_map {A B C : Type} (g : A -> B) (f : B -> nat -> C) (l : list A) (i : nat) :
  mapi_from f (map g l) i = mapi_from (fun x k => f (g x) k) l i.
Proof.
  revert i. induction l as [|x rest IH]; intro i; [reflexivity|].
  cbn [map mapi_from]. rewrite IH. reflexivity.
Qed.

(** X8. End to end.  After a pass that resolves, selecting the Directions
    tab shows one entry per step of the first leg of the first route, in
    order: the text is the maneuver instruction or, failing that, the road
    name, and the second line is the rounded step distance followed by
    " meters".  When that leg has no step the tab shows the placeholder
    prompt, although the route was found and drawn. *)
Theorem resolved_pass_fills_directions_tab
  (from to : string) (answers : Answers) (r1 r2 : GeoResult)
  (route0 : RoutePayload) (leg0 : LegPayload) (coordinates : list (number * number))
  (w : World) :
  first_result (answer_from answers) = Some r1 ->
  first_result (answer_to answers) = Some r2 ->
  first_leg (answer_route answers) = Some (route0, leg0) ->
  geometry_coordinates route0 = Some coordinates ->
  directions_panel
    (App (shell (snd (handleTabChange 1
                        (snd (updateRoute map_distance from to answers w))))))
  = Some
      (match steps leg0 with
       | [] => Placeholder placeholder_text
       | _ :: _ =>
           StepList
             (mapi (fun step index =>
                      {| key := index;
                         divider := negb (index =? List.length (steps leg0) - 1)%nat;
                         primary := js_or (maneuver_instruction step) (step_name step);
                         secondary :=
                           num_toString (Math_round (step_distance step)) ++ " meters" |})
                   (steps leg0))
       end).
Proof.
  intros E1 E2 E3 E4. rewrite (updateRoute_drawn _ _ _ _ _ _ _ _ _ E1 E2 E3 E4).
  unfold handleTabChange. run_eff. unfold directions_tab, TabPanel.
  cbn [tabValue with_tabValue directions with_directions Nat.eqb].
  unfold directions_view. rewrite length_map.
  destruct (steps leg0) as [|s0 rest]; [reflexivity|].
  cbn [List.length Nat.ltb Nat.leb]. unfold mapi. rewrite mapi_from_map. reflexivity.
Qed.

(** *** Layers over several passes *)


(** X10. No pass, whatever the answers, removes or adds a layer that is
    neither a marker nor a polyline: the tile layer, and any other such
    layer, are on the map afterwards in the same order as before. *)
Theorem pass_keeps_other_layers (from to : string) (answers : Answers) (w : World) :
  filter (fun l => negb (is_route_layer l))
    (layers (leaflet (snd (updateRoute map_distance from to answers w))))
  = filter (fun l => negb (is_route_layer l)) (layers (leaflet w)).
Proof.
  pass_cases answers; cbn [snd leaflet layers cleared].
  - rewrite filter_app, filter_idempotent.
    unfold route_layers, airport_layers.
    destruct (num_gt _ _); cbn; rewrite app_nil_r; reflexivity.
  - apply filter_idempotent.
  - apply filter_idempotent.
  - match goal with H : leaflet _ = leaflet w |- _ => rewrite H end. reflexivity.
  - match goal with H : leaflet _ = leaflet w |- _ => rewrite H end. reflexivity.
Qed.

(** X11. A pass that does not resolve draws nothing: the viewport is as it
    was, and the layers afterwards are either the layers before or, when
    both addresses were found, the layers before without the markers and
    polylines; so every layer on the map afterwards was there before. *)
Theorem failed_pass_draws_nothing (from to : string) (answers : Answers) (w : World) :
  resolves answers = false ->
  viewport (leaflet (snd (updateRoute map_distance from to answers w)))
  = viewport (leaflet w)
  /\ (layers (leaflet (snd (updateRoute map_distance from to answers w)))
      = layers (leaflet w)
      \/ layers (leaflet (snd (updateRoute map_distance from to answers w)))
         = filter (fun l => negb (is_route_layer l)) (layers (leaflet w)))
  /\ (forall l,
        In l (layers (leaflet (snd (updateRoute map_distance from to answers w)))) ->
        In l (layers (leaflet w))).
Proof.
  unfold resolves. intro H.
  pass_cases answers; try discriminate; cbn [snd leaflet layers viewport cleared].
  - split; [reflexivity|]. split; [right; reflexivity|].
    intros l G. apply filter_In in G. apply G.
  - split; [reflexivity|]. split; [right; reflexivity|].
    intros l G. apply filter_In in G. apply G.
  - match goal with G : leaflet _ = leaflet w |- _ => rewrite G end.
    split; [reflexivity|]. split; [left; reflexivity|]. intros l G. exact G.
  - match goal with G : leaflet _ = leaflet w |- _ => rewrite G end.
    split; [reflexivity|]. split; [left; reflexivity|]. intros l G. exact G.
Qed.


(** *** What the handlers never do *)

Lemma after_render (answers : Answers) (w : World) :
  after map_distance (Render answers) w
  = if truthy (origin (shell w)) && truthy (destination (shell w))
    then snd (updateRoute map_distance (origin (shell w)) (destination (shell w)) answers w)
    else w.
Proof.
  unfold after, perform, bind, get_shell. rewrite RouteMap_run. reflexivity.
Qed.

(** X12. Requests, changes of the map and changes of the directions come
    from renderings of [RouteMap] with both fields filled, and from nothing
    else: typing, changing the tab and submitting never make a request,
    never touch the map and never change the directions. *)
Theorem only_a_render_reaches_network_and_map (a : Action) (w : World) :
  requests (effects (after map_distance a w)) <> requests (effects w)
  \/ leaflet (after map_distance a w) <> leaflet w
  \/ directions (shell (after map_distance a w)) <> directions (shell w) ->
  exists answers,
    a = Render answers /\ origin (shell w) <> "" /\ destination (shell w) <> "".
Proof.
  intro H. destruct a as [v|v|t| |answers].
  - exfalso. unfold after, perform in H. revert H. run_eff.
    rewrite requests_app, app_nil_r. intros [H|[H|H]]; apply H; reflexivity.
  - exfalso. unfold after, perform in H. revert H. run_eff.
    rewrite requests_app, app_nil_r. intros [H|[H|H]]; apply H; reflexivity.
  - exfalso. unfold after, perform in H. revert H. run_eff.
    rewrite requests_app, app_nil_r. intros [H|[H|H]]; apply H; reflexivity.
  - exfalso. unfold after, perform in H. rewrite handleSubmit_run in H.
    cbn [snd shell leaflet effects directions with_error] in H.
    rewrite requests_app, app_nil_r in H. destruct H as [H|[H|H]]; apply H; reflexivity.
  - exists answers. split; [reflexivity|]. rewrite after_render in H.
    destruct (truthy (origin (shell w))) eqn:T1;
      destruct (truthy (destination (shell w))) eqn:T2; cbn [andb] in H;
      try (exfalso; destruct H as [H|[H|H]]; apply H; reflexivity).
    apply truthy_true in T1, T2. split; assumption.
Qed.

Lemma geocode_requests_of_pass (from to : string) (answers : Answers) (w : World) :
  List.length (filter is_geocode_request
                 (requests (effects (snd (updateRoute map_distance from to answers w)))))
  = List.length (filter is_geocode_request (requests (effects w))) + 2.
Proof.
  rewrite updateRoute_requests, !filter_app, !length_app.
  destruct (first_result (answer_from answers)), (first_result (answer_to answers));
    cbn; lia.
Qed.

(** X13. Nothing is remembered between renderings.  With both fields
    filled, every rendering of [RouteMap] asks the geocoder twice again,
    whatever the earlier passes found and whether or not anything changed:
    after [k] renderings, [2 * k] more geocoding requests have been made,
    and the fields are still as they were. *)
Theorem every_render_geocodes_again (passes : list Action) (w : World) :
  origin (shell w) <> "" ->
  destination (shell w) <> "" ->
  forallb is_render passes = true ->
  List.length (filter is_geocode_request
                 (requests (effects (after_all map_distance passes w))))
  = List.length (filter is_geocode_request (requests (effects w)))
    + 2 * List.length passes
  /\ origin (shell (after_all map_distance passes w)) = origin (shell w)
  /\ destination (shell (after_all map_distance passes w)) = destination (shell w).
Proof.
  revert w. induction passes as [|a rest IH]; intros w H1 H2 H.
  - cbn. repeat split; lia.
  - cbn [forallb] in H. apply andb_true_iff in H. destruct H as [Ha Hrest].
    destruct a as [v|v|t| |answers]; try discriminate.
    cbn [after_all fold_left].
    pose proof H1 as T1. pose proof H2 as T2. apply truthy_true in T1, T2.
    assert (Hstep : after map_distance (Render answers) w
                    = snd (updateRoute map_distance (origin (shell w))
                             (destination (shell w)) answers w)).
    { rewrite after_render, T1, T2. reflexivity. }
    destruct (updateRoute_fields (origin (shell w)) (destination (shell w)) answers w)
      as [F1 [F2 _]].
    rewrite <- Hstep in F1, F2.
    destruct (IH (after map_distance (Render answers) w)) as [G1 [G2 G3]].
    + rewrite F1. exact H1.
    + rewrite F2. exact H2.
    + exact Hrest.
    + unfold after_all in *. rewrite G1, G2, G3, F1, F2.
      rewrite Hstep, geocode_requests_of_pass. cbn [List.length]. repeat split; lia.
Qed.

(** *** The length of a polyline *)

Lemma segment_lengths_snoc (points : list LatLng) (p q : LatLng) :
  segment_lengths map_distance (points ++ [p; q])
  = segment_lengths map_distance (points ++ [p]) ++ [map_distance p q].
Proof.
  induction points as [|a rest IH]; [reflexivity|].
  destruct rest as [|b rest'].
  - reflexivity.
  - change ((a :: b :: rest') ++ [p; q]) with (a :: (b :: rest') ++ [p; q]).
    change ((a :: b :: rest') ++ [p]) with (a :: (b :: rest') ++ [p]).
    cbn [segment_lengths app] in *. rewrite IH. reflexivity.
Qed.

(** X14. The distance [updateRoute] computes grows by one segment per
    point: for a polyline that ends in [p], adding a point [q] after it adds
    [map.distance(p, q)] to the distance, and nothing else of the sum
    changes. *)
Theorem route_distance_extends_by_one_segment (points : list LatLng) (p q : LatLng) :
  route_distance map_distance (points ++ [p; q])
  = num_add (route_distance map_distance (points ++ [p])) (map_distance p q).
Proof.
  rewrite !route_distance_sum. unfold polyline_length.
  rewrite segment_lengths_snoc, fold_left_app. reflexivity.
Qed.

(** *** The text of a step *)

(** X15. An entry of the directions list has an empty instruction only when
    the step gives no usable text at all: the road name is empty and the
    maneuver instruction is missing or empty.  In particular a step with a
    non-empty road name always yields a non-empty instruction. *)
Theorem entry_instruction_empty_only_without_text (step : StepPayload) :
  instruction (to_RouteStep step) = ""
  <-> step_name step = ""
      /\ (maneuver_instruction step = None \/ maneuver_instruction step = Some "").
Proof.
  cbn [to_RouteStep instruction]. unfold js_or.
  destruct (maneuver_instruction step) as [s|].
  - destruct (truthy s) eqn:T.
    + apply truthy_true in T. split.
      * intro H. contradiction.
      * intros [_ [H|H]]; [discriminate|]. injection H as H. contradiction.
    + apply truthy_false in T. subst s. split.
      * intro H. split; [exact H|right; reflexivity].
      * intros [H _]. exact H.
  - split.
    + intro H. split; [exact H|left; reflexivity].
    + intros [H _]. exact H.
Qed.

End Properties.

(** ** The model on the sample inputs *)

(** [Rational.round] is the nearest integer, a tie going up. *)
Lemma Rational_round_nearest (x : Q) :
  (inject_Z (Rational.round_Q x) - (1 # 2) <= x
   /\ x < inject_Z (Rational.round_Q x) + (1 # 2))%Q.
Proof.
  unfold Rational.round_Q.
  pose proof (Qfloor_le (x + (1 # 2))) as Hle.
  pose proof (Qlt_floor (x + (1 # 2))) as Hlt.
  rewrite inject_Z_plus in Hlt. change (inject_Z 1) with 1%Q in Hlt.
  set (z := inject_Z (Qfloor (x + (1 # 2)))) in *.
  split; lra.
Qed.

(** Submit on the freshly mounted widget, both fields empty. *)
Lemma handleSubmit_on_mounted :
  handleSubmit Sample.mounted
  = (Normal tt,
     {| shell := {| origin := ""; destination := "";
                    error := Some "Please enter both origin and destination";
                    directions := []; tabValue := 0 |};
        leaflet := {| layers := [TileLayer]; viewport := InitialView |};
        effects := [SetError (Some "Please enter both origin and destination")] |}).
Proof.
  apply (proj1 (handleSubmit_sets_or_clears_error Sample.mounted)).
  left. reflexivity.
Defined.

(** Dallas to Fort Worth: the polyline on the map is the payload, swapped. *)
Lemma fort_worth_polyline :
  filter (fun l => match l with Polyline _ _ _ => true | _ => false end)
    (layers (leaflet Sample.drawn))
  = [Polyline [ (lit 32.7762, lit (-96.7968)); (lit 32.7600, lit (-97.0403));
                (lit 32.7531, lit (-97.3327)) ] "#2196F3" 5].
Proof.
  apply (rendered_coordinates_swap_payload_pairs Sample.flat_distance
           "Dallas, TX" "Fort Worth, TX" Sample.to_fort_worth Sample.dallas Sample.fort_worth
           (Sample.route_along Sample.short_line Sample.three_steps)
           (Sample.leg_of Sample.three_steps) Sample.short_line Sample.typed); reflexivity.
Defined.

(** Dallas to Austin is longer than 100 km: both airports appear. *)
Lemma austin_airports :
  filter is_airport_marker
    (layers (leaflet (snd (updateRoute Sample.flat_distance "Dallas, TX" "Austin, TX"
                             Sample.to_austin Sample.typed))))
  = [ Marker (lit 32.8998, lit (-97.0403)) airportIcon "DFW Airport";
      Marker (lit 32.8481, lit (-96.8512)) airportIcon "DAL Airport" ].
Proof.
  apply (airports_added_iff_route_exceeds_100km Sample.flat_distance
           "Dallas, TX" "Austin, TX" Sample.to_austin Sample.dallas Sample.austin
           (Sample.route_along Sample.long_line Sample.three_steps)
           (Sample.leg_of Sample.three_steps) Sample.long_line Sample.typed); reflexivity.
Defined.

(** Neither address is found: the map is left alone. *)
Lemma nowhere_leaves_map :
  leaflet (snd (updateRoute Sample.flat_distance "Atlantis" "El Dorado"
                  Sample.nowhere Sample.drawn))
  = leaflet Sample.drawn.
Proof.
  apply (proj2 (proj2 (geocode_first_result_or_lookup_error Sample.flat_distance
                         "Atlantis" "Atlantis" "El Dorado" Sample.nowhere Sample.drawn))).
  left. reflexivity.
Defined.

(** C5, the claim at a concrete input.  A route is on the map; the next pass
    finds both addresses and the router answers [NoRoute].  The route
    message is set, and the two markers and the polyline of the earlier
    route are no longer on the map: only the tile layer is. *)
Lemma failed_route_status_removes_drawn_route :
  answer_route Sample.no_route = RouteJson {| code := "NoRoute"; routes := [] |}
  /\ layers (leaflet Sample.drawn)
     = [ TileLayer;
         Marker (lit 32.7762719, lit (-96.7968559)) DefaultIcon "Start: Dallas, TX";
         Marker (lit 32.753177, lit (-97.3327459)) DefaultIcon "End: Fort Worth, TX";
         Polyline [ (lit 32.7762, lit (-96.7968)); (lit 32.7600, lit (-97.0403));
                    (lit 32.7531, lit (-97.3327)) ] "#2196F3" 5 ]
  /\ error (shell (snd (updateRoute Sample.flat_distance "Dallas, TX" "Fort Worth, TX"
                          Sample.no_route Sample.drawn)))
     = Some "Error finding route. Please try again."
  /\ layers (leaflet (snd (updateRoute Sample.flat_distance "Dallas, TX" "Fort Worth, TX"
                             Sample.no_route Sample.drawn)))
     = [ TileLayer ].
Proof.
  repeat split; vm_compute; reflexivity.
Defined.

Lemma no_route_on_drawn :
  layers (leaflet (snd (updateRoute Sample.flat_distance "Dallas, TX" "Fort Worth, TX"
                          Sample.no_route Sample.drawn)))
  = filter (fun l => negb (is_route_layer l)) (layers (leaflet Sample.drawn)).
Proof.
  apply (failed_route_status_clears_prior_route_layers Sample.flat_distance
           "Dallas, TX" "Fort Worth, TX" Sample.no_route Sample.dallas Sample.fort_worth
           {| code := "NoRoute"; routes := [] |} Sample.drawn);
    try reflexivity.
  intro H. discriminate H.
Defined.

(** C6, the claim at a concrete input.  The step carries a maneuver
    instruction, the empty string, and the road name Elm Street.  The entry
    built for it shows the road name, not the instruction the step has. *)
Lemma empty_instruction_falls_back_to_road_name :
  maneuver_instruction Sample.unnamed_turn = Some ""
  /\ directions
       (shell (snd (getRoute (to_Coordinates Sample.dallas) (to_Coordinates Sample.fort_worth)
                      (RouteJson (Sample.route_of Sample.short_line [Sample.unnamed_turn]))
                      Sample.typed)))
     = [ {| instruction := "Elm Street"; distance := lit 120 |} ]
  /\ "Elm Street" <> "".
Proof.
  repeat split; try (vm_compute; reflexivity). discriminate.
Defined.

Lemma fort_worth_directions :
  List.length
    (directions
       (shell (snd (getRoute (to_Coordinates Sample.dallas) (to_Coordinates Sample.fort_worth)
                      (answer_route Sample.to_fort_worth) Sample.typed))))
  = 3.
Proof.
  apply (proj1 (directions_built_from_first_leg_steps
                  (to_Coordinates Sample.dallas) (to_Coordinates Sample.fort_worth)
                  (answer_route Sample.to_fort_worth)
                  (Sample.route_along Sample.short_line Sample.three_steps)
                  (Sample.leg_of Sample.three_steps) Sample.short_line Sample.typed
                  eq_refl eq_refl)).
Defined.

(** The end-to-end example: three steps, three entries. *)
Lemma fort_worth_directions_tab :
  exists items,
    directions_tab (with_tabValue 1 (shell Sample.drawn)) = Some (StepList items)
    /\ List.length items = 3.
Proof.
  destruct (proj1 (directions_tab_lists_each_step (with_tabValue 1 (shell Sample.drawn))
                     eq_refl))
    as [items [H1 [H2 _]]].
  - discriminate.
  - exists items. split; [exact H1|exact H2].
Defined.

Lemma nowhere_log :
  effects (snd (updateRoute Sample.flat_distance "Atlantis" "El Dorado"
                  Sample.nowhere Sample.typed))
  = [ Fetch (Nominatim "Atlantis");
      ConsoleError "Error getting coordinates:" (JsError "Location not found");
      SetError (Some "Error finding location. Please try a different address.");
      Fetch (Nominatim "El Dorado");
      ConsoleError "Error getting coordinates:" NetworkError;
      SetError (Some "Error finding location. Please try a different address.") ].
Proof.
  apply (proj1 (proj2 (destination_geocoded_after_origin_failure Sample.flat_distance
                         "Atlantis" "El Dorado" Sample.nowhere Sample.typed)));
    reflexivity.
Defined.

(** After a failed pass, two passes that resolve leave the location message
    in the banner. *)
Lemma banner_survives_resolved_passes :
  Alert (shell (after_all Sample.flat_distance
                  [Render Sample.to_fort_worth; Render Sample.to_austin]
                  (snd (updateRoute Sample.flat_distance "Dallas, TX" "Fort Worth, TX"
                          Sample.nowhere Sample.typed))))
  = Some "Error finding location. Please try a different address.".
Proof.
  exact (proj2 (proj2 (proj2 (proj2 (error_cleared_only_by_submit Sample.flat_distance)))
                  [Render Sample.to_fort_worth; Render Sample.to_austin]
                  (snd (updateRoute Sample.flat_distance "Dallas, TX" "Fort Worth, TX"
                          Sample.nowhere Sample.typed))
                  eq_refl)).
Defined.

(** C10, the claim at a concrete input.  Three steps are displayed; the next
    pass gets status [Ok] with one step and no geometry.  The routing call
    fails, with the route message, and the directions are no longer the
    three steps: they were overwritten before the failure. *)
Lemma missing_geometry_overwrites_directions :
  fst (getRoute (to_Coordinates Sample.dallas) (to_Coordinates Sample.fort_worth)
         (answer_route Sample.no_geometry) Sample.drawn)
  = Normal None
  /\ error (shell (snd (updateRoute Sample.flat_distance "Dallas, TX" "Fort Worth, TX"
                          Sample.no_geometry Sample.drawn)))
     = Some "Error finding route. Please try again."
  /\ directions (shell Sample.drawn)
     = [ {| instruction := "Main Street"; distance := lit 413 |};
         {| instruction := "Merge onto I-30 West"; distance := lit 48211 |};
         {| instruction := ""; distance := lit 0 |} ]
  /\ directions (shell (snd (updateRoute Sample.flat_distance "Dallas, TX" "Fort Worth, TX"
                               Sample.no_geometry Sample.drawn)))
     = [ {| instruction := "Main Street"; distance := lit 413 |} ].
Proof.
  repeat split; vm_compute; reflexivity.
Defined.

Lemma no_route_keeps_directions :
  directions (shell (snd (updateRoute Sample.flat_distance "Dallas, TX" "Fort Worth, TX"
                            Sample.no_route Sample.drawn)))
  = directions (shell Sample.drawn).
Proof.
  apply (directions_kept_when_attempt_fails_before_steps Sample.flat_distance
           "Dallas, TX" "Fort Worth, TX" Sample.no_route Sample.drawn).
  right. right. right. exists {| code := "NoRoute"; routes := [] |}.
  split; [reflexivity|]. left. intro H. discriminate H.
Defined.

(** ** Further runs on the sample inputs *)

(** Both fields filled and both addresses found: three requests. *)
Lemma fort_worth_requests :
  requests (effects (snd (RouteMap Sample.flat_distance "Dallas, TX" "Fort Worth, TX"
                            Sample.to_fort_worth Sample.typed)))
  = [ Nominatim "Dallas, TX"; Nominatim "Fort Worth, TX";
      Osrm (to_Coordinates Sample.dallas) (to_Coordinates Sample.fort_worth) ].
Proof.
  apply (proj2 (proj2 (route_map_requests Sample.flat_distance "Dallas, TX" "Fort Worth, TX"
                         Sample.to_fort_worth Sample.typed))).
  split; intro H; discriminate H.
Defined.

(** A session: submit on the empty form, fill it in, a failed pass, submit
    again, a pass that resolves. *)
Lemma session_banner_shows_error_slot :
  banner (App (shell (after_all Sample.flat_distance
                        [ Submit; TypeOrigin "Dallas, TX"; TypeDestination "Fort Worth, TX";
                          Render Sample.nowhere; Submit; Render Sample.no_route;
                          Render Sample.to_fort_worth ]
                        Sample.mounted)))
  = error (shell (after_all Sample.flat_distance
                    [ Submit; TypeOrigin "Dallas, TX"; TypeDestination "Fort Worth, TX";
                      Render Sample.nowhere; Submit; Render Sample.no_route;
                      Render Sample.to_fort_worth ]
                    Sample.mounted)).
Proof.
  apply (error_slot_holds_fixed_messages Sample.flat_distance
           [ Submit; TypeOrigin "Dallas, TX"; TypeDestination "Fort Worth, TX";
             Render Sample.nowhere; Submit; Render Sample.no_route;
             Render Sample.to_fort_worth ]
           Sample.mounted).
  left. reflexivity.
Defined.


(** Three steps shown: keys 0, 1, 2, and three items. *)
Lemma fort_worth_items :
  List.length
    (match directions_view (directions (shell Sample.drawn)) with
     | StepList items => items
     | Placeholder _ => []
     end)
  = List.length (directions (shell Sample.drawn)).
Proof.
  apply (list_items_keys_and_dividers (directions (shell Sample.drawn))
           (match directions_view (directions (shell Sample.drawn)) with
            | StepList items => items
            | Placeholder _ => []
            end)).
  reflexivity.
Defined.

(** Dallas to Fort Worth, then the Directions tab. *)
Lemma fort_worth_then_directions_tab :
  directions_panel
    (App (shell (snd (handleTabChange 1
                        (snd (updateRoute Sample.flat_distance "Dallas, TX" "Fort Worth, TX"
                                Sample.to_fort_worth Sample.typed))))))
  = Some (StepList
            [ {| key := 0; divider := true; primary := "Main Street";
                 secondary := "413 meters" |};
              {| key := 1; divider := true; primary := "Merge onto I-30 West";
                 secondary := "48211 meters" |};
              {| key := 2; divider := false; primary := "";
                 secondary := "0 meters" |} ]).
Proof.
  apply (resolved_pass_fills_directions_tab Sample.flat_distance
           "Dallas, TX" "Fort Worth, TX" Sample.to_fort_worth Sample.dallas Sample.fort_worth
           (Sample.route_along Sample.short_line Sample.three_steps)
           (Sample.leg_of Sample.three_steps) Sample.short_line Sample.typed);
    reflexivity.
Defined.


(** A payload without geometry moves nothing on the map. *)
Lemma no_geometry_keeps_viewport :
  viewport (leaflet (snd (updateRoute Sample.flat_distance "Dallas, TX" "Fort Worth, TX"
                            Sample.no_geometry Sample.drawn)))
  = viewport (leaflet Sample.drawn).
Proof.
  exact (proj1 (failed_pass_draws_nothing Sample.flat_distance "Dallas, TX" "Fort Worth, TX"
                  Sample.no_geometry Sample.drawn eq_refl)).
Defined.

(** The request log grows on a rendering of the filled form. *)
Lemma render_is_what_fetched :
  exists answers,
    Render Sample.to_fort_worth = Render answers
    /\ origin (shell Sample.typed) <> "" /\ destination (shell Sample.typed) <> "".
Proof.
  refine (only_a_render_reaches_network_and_map Sample.flat_distance
            (Render Sample.to_fort_worth) Sample.typed (or_introl _)).
  intro H. apply (f_equal (@List.length Request)) in H. vm_compute in H. discriminate H.
Defined.

(** Three renderings, six geocoding requests. *)
Lemma three_renders_six_lookups :
  List.length
    (filter is_geocode_request
       (requests (effects (after_all Sample.flat_distance
                             [ Render Sample.to_fort_worth; Render Sample.nowhere;
                               Render Sample.to_fort_worth ]
                             Sample.typed))))
  = List.length (filter is_geocode_request (requests (effects Sample.typed))) + 2 * 3.
Proof.
  apply (every_render_geocodes_again Sample.flat_distance
           [ Render Sample.to_fort_worth; Render Sample.nowhere; Render Sample.to_fort_worth ]
           Sample.typed);
    try reflexivity; intro H; discriminate H.
Defined.
